(** * DigitalGovernanceFramework.jsx: compliance check, scan loop and incident feed

    A shallow embedding of [src/DigitalGovernanceFramework.jsx].

    - The sensor readings are modelled as exact rationals ([Q]); a decimal
      literal of the source denotes itself.  Comparisons, [Math.min] and the
      affine perturbation of the simulator are the source's, computed without
      the rounding of IEEE doubles.  The percentages that are printed are
      computed as the code computes them: the product with 100 is rounded to
      a binary64 number ([Number_mul]) and printed by [toFixed].
    - Object literals and Firestore documents are finite maps from property
      names to field values ([gmap string FieldValue]).
    - The [App] component is a transition system: React state plus the
      pending [async] invocations of [runDigitalScan], driven by the events
      the browser can deliver (effect run, timer, settled [addDoc] promise,
      snapshot delivery, snapshot error). *)

From Stdlib Require Import QArith Qround Qabs ZArith Lia Lqa.
From stdpp Require Import gmap strings list fin_maps pretty.

Open Scope Z_scope.

(** ** JavaScript values and library functions used by the source *)

(** The values a field of an incident object or a Firestore document holds in
    this program. *)
Inductive FieldValue : Type :=
  | VStr (s : string)             (* a string *)
  | VTimestamp (millis : Z)       (* a resolved Firestore [Timestamp] (has [toDate]) *)
  | VServerTimestamp              (* the sentinel returned by [serverTimestamp()] *)
  | VNull.                        (* [null], e.g. a server timestamp not yet resolved *)

(** A plain object: property name to value. *)
Abbreviation Obj := (gmap string FieldValue).

(** [a > b] on numbers. *)
Definition gt (a b : Q) : bool := negb (Qle_bool a b).

(** [Math.min(a, b)]. *)
Definition Math_min (a b : Q) : Q := if Qle_bool a b then a else b.

(** A Number as an arithmetic operation returns it: a finite binary64 value
    (zero carries no sign here), an infinity, or [NaN]. *)
Inductive Num : Type :=
  | Finite (q : Q)
  | Infinite (negative : bool)
  | NotANumber.

(** [2 ^ k] for any integer [k]. *)
Definition pow2 (k : Z) : Q :=
  if 0 <=? k then inject_Z (2 ^ k) else 1 # Z.to_pos (2 ^ (- k)).

(** The binary exponent of a positive rational: [2^e <= a < 2^(e+1)]. *)
Definition ilog2 (a : Q) : Z :=
  let k := Z.log2 (Qnum a) - Z.log2 (Zpos (Qden a)) in
  if Qle_bool (pow2 k) a then k else k - 1.

(** The nearest integer, the even one on a tie. *)
Definition roundHalfEven (z : Q) : Z :=
  let f := Qfloor z in
  match Qcompare (z - inject_Z f) (1 # 2) with
  | Lt => f
  | Gt => f + 1
  | Eq => if Z.even f then f else f + 1
  end.

(** The binary64 number nearest to a real (IEEE 754 round to nearest, ties
    to even): 53 significant bits, least exponent [-1074], an infinity from
    [2^1024] on. *)
Definition round64 (x : Q) : Num :=
  let x := Qred x in
  if Qeq_bool x 0 then Finite 0
  else
    let a := Qabs x in
    let e := ilog2 a in
    let u := Z.max (e - 52) (-1074) in
    let m := roundHalfEven (a / pow2 u) in
    let r := Qred (inject_Z m * pow2 u) in
    if Qle_bool (pow2 1024) r then Infinite (negb (Qle_bool 0 x))
    else Finite (if Qle_bool 0 x then r else Qred (- r)).

Definition isNegative (x : Num) : bool :=
  match x with
  | Finite q => negb (Qle_bool 0 q)
  | Infinite negative => negative
  | NotANumber => false
  end.

Definition isZero (x : Num) : bool :=
  match x with Finite q => Qeq_bool q 0 | _ => false end.

(** [x * y] on Numbers. *)
Definition Number_multiply (x y : Num) : Num :=
  match x, y with
  | Finite a, Finite b => round64 (a * b)
  | NotANumber, _ | _, NotANumber => NotANumber
  | _, _ =>
      if isZero x || isZero y then NotANumber
      else Infinite (xorb (isNegative x) (isNegative y))
  end.

(** [a * b] for a reading or literal [a] and a literal [b]: each stands for
    the binary64 number nearest to it, the product is rounded again. *)
Definition Number_mul (a b : Q) : Num := Number_multiply (round64 a) (round64 b).

(** Whether the integer [v] rounds to the binary64 number [x]. *)
Definition roundsTo (x : Z) (v : Z) : bool :=
  match round64 (inject_Z v) with
  | Finite r => Qeq_bool r (inject_Z x)
  | _ => false
  end.

(** The shortest decimal significand [s] (with [k] digits, [k] counted up
    from 1) for which [s * 10^(n - k)] rounds to [x], the one nearest to [x]
    and the even one on a tie, together with the decimal exponent to print;
    [n0] is the number of digits of [x]. *)
Fixpoint shortestDigits (fuel : nat) (k : Z) (x : Z) (n0 : Z) : Z * Z :=
  match fuel with
  | O => (x, n0 - 1)
  | S fuel' =>
      let p := 10 ^ (n0 - k) in
      let lo := x / p in
      let hi := lo + 1 in
      let okLo := roundsTo x (lo * p) in
      let okHi := roundsTo x (hi * p) in
      let pick (s : Z) := if s =? 10 ^ k then (10 ^ (k - 1), n0) else (s, n0 - 1) in
      if okLo && okHi then
        match Z.compare (x - lo * p) (hi * p - x) with
        | Lt => pick lo
        | Gt => pick hi
        | Eq => if Z.even lo then pick lo else pick hi
        end
      else if okLo then pick lo
      else if okHi then pick hi
      else shortestDigits fuel' (k + 1) x n0
  end.

(** [Number::toString] of a binary64 number from [1e21] on (an integer):
    exponent notation with the shortest digits that read back as the
    number. *)
Definition Number_toString_large (a : Q) : string :=
  let x := Qfloor a in
  let n0 := Z.of_nat (String.length (pretty x)) in
  let '(s, e) := shortestDigits 17 1 x n0 in
  match pretty s with
  | String d "" => String d "" +:+ "e+" +:+ pretty e
  | String d rest => String d "" +:+ "." +:+ rest +:+ "e+" +:+ pretty e
  | "" => ""
  end.

(** [x.toFixed(0)]: infinities and [NaN] print their names; otherwise the
    sign is split off, from [1e21] on the number is printed by
    [Number::toString], and below that as the integer nearest to it, the
    larger one on a tie. *)
Definition toFixed0 (x : Num) : string :=
  match x with
  | Infinite negative => if negative then "-Infinity" else "Infinity"
  | NotANumber => "NaN"
  | Finite q =>
      let a := Qabs q in
      (if Qle_bool 0 q then "" else "-") +:+
      (if Qle_bool (inject_Z (10 ^ 21)) a
       then Number_toString_large a
       else pretty (Qfloor (a + (1 # 2))))
  end.

(** [x.toFixed(1)]: as [toFixed(0)], with the number rounded to tenths and
    exactly one digit after the point. *)
Definition toFixed1 (x : Num) : string :=
  match x with
  | Infinite negative => if negative then "-Infinity" else "Infinity"
  | NotANumber => "NaN"
  | Finite q =>
      let a := Qabs q in
      (if Qle_bool 0 q then "" else "-") +:+
      (if Qle_bool (inject_Z (10 ^ 21)) a
       then Number_toString_large a
       else
         let n := Qfloor (a * 10 + (1 # 2)) in
         pretty (n / 10) +:+ "." +:+ pretty (n mod 10))
  end.

Definition pad2 (n : Z) : string :=
  if n <? 10 then "0" +:+ pretty n else pretty n.

(** [new Date(millis).toLocaleTimeString()], here for the [en-US] locale in
    the UTC time zone: [h:mm:ss AM] or [h:mm:ss PM].  Only the time of day is
    printed, never the date. *)
Definition toLocaleTimeString (millis : Z) : string :=
  let secs := (millis / 1000) mod 86400 in
  let h := secs / 3600 in
  let m := (secs / 60) mod 60 in
  let s := secs mod 60 in
  let h12 := if h mod 12 =? 0 then 12 else h mod 12 in
  pretty h12 +:+ ":" +:+ pad2 m +:+ ":" +:+ pad2 s +:+
  (if h <? 12 then " AM" else " PM").

(** Subtraction of two [Date] objects: the difference of their time values,
    [NaN] (here [None]) when either is an invalid date. *)
Definition dateMinus (a b : option Z) : option Z :=
  match a, b with
  | Some x, Some y => Some (x - y)
  | _, _ => None
  end.

(** [Array.prototype.sort(comparefn)]: a stable sort; a comparator result of
    [NaN] counts as [+0].  [x] stays in front of [y] unless the comparator
    says [x] belongs after [y]. *)
Definition sortsAfter {A} (comparefn : A -> A -> option Z) (x y : A) : bool :=
  match comparefn x y with
  | Some v => 0 <? v
  | None => false
  end.

Fixpoint sortInsert {A} (comparefn : A -> A -> option Z) (x : A) (l : list A) : list A :=
  match l with
  | [] => [x]
  | y :: l' =>
      if sortsAfter comparefn x y
      then y :: sortInsert comparefn x l'
      else x :: y :: l'
  end.

Definition Array_sort {A} (comparefn : A -> A -> option Z) (l : list A) : list A :=
  foldr (sortInsert comparefn) [] l.

(** ** The regulation table *)

Record WasteRule := {
  targetArea : string;
  collectionSchedule : list string;
  maxVolume : Q;
  fine : Z
}.

Record TrafficRule := {
  maxDensity : Q;
  sensorLocations : list string;
  alertLevel : string
}.

Definition WASTE_COMPLIANCE : WasteRule := {|
  targetArea := "Cihampelas";
  collectionSchedule := ["Monday"; "Wednesday"; "Friday"];
  maxVolume := 0.8;
  fine := 500000
|}.

Definition TRAFFIC_COMPLIANCE : TrafficRule := {|
  maxDensity := 0.75;
  sensorLocations := ["Dago"; "Pasteur"; "Gedebage"];
  alertLevel := "Kritis"
|}.

(** ** checkCompliance *)

(** The sensor data of one scan: [governanceData] / [newData]. *)
Record GovernanceData := {
  wasteVolume : Q;
  trafficDensity : Q;
  lastUpdate : string
}.

Record ComplianceResult := {
  isOverallCompliant : bool;
  incidents : list Obj
}.

(** The object literal pushed by the waste branch. *)
Definition wasteIncident (data : GovernanceData) : Obj :=
  <["type" := VStr "Sampah"]>
  (<["area" := VStr (targetArea WASTE_COMPLIANCE)]>
  (<["description" :=
       VStr ("Volume sampah melebihi batas (" +:+ toFixed0 (Number_mul (wasteVolume data) 100)
             +:+ "%) di " +:+ targetArea WASTE_COMPLIANCE +:+ ".")]>
  (<["status" := VStr "Pelanggaran Berat"]>
  (<["timestamp" := VServerTimestamp]> ∅)))).

(** The object literal pushed by the traffic branch. *)
Definition trafficIncident (data : GovernanceData) : Obj :=
  <["type" := VStr "Lalu Lintas"]>
  (<["area" := VStr "Dago/Pasteur (Simulasi)"]>
  (<["description" :=
       VStr ("Kepadatan lalu lintas kritis (" +:+ toFixed0 (Number_mul (trafficDensity data) 100)
             +:+ "%). Perlu intervensi sinyal otomatis.")]>
  (<["status" := VStr (alertLevel TRAFFIC_COMPLIANCE)]>
  (<["timestamp" := VServerTimestamp]> ∅)))).

Definition checkCompliance (data : GovernanceData) : ComplianceResult :=
  let r0 := {| isOverallCompliant := true; incidents := [] |} in
  let r1 :=
    if gt (wasteVolume data) (maxVolume WASTE_COMPLIANCE)
    then {| isOverallCompliant := false;
            incidents := incidents r0 ++ [wasteIncident data] |}
    else r0 in
  if gt (trafficDensity data) (maxDensity TRAFFIC_COMPLIANCE)
  then {| isOverallCompliant := false;
          incidents := incidents r1 ++ [trafficIncident data] |}
  else r1.

(** ** The App component *)

Module App.

(** A document of a query snapshot: [doc.id] and [doc.data()]. *)
Record Doc := {
  doc_id : string;
  doc_data : Obj
}.

(** An invocation of [runDigitalScan] suspended at [await addDoc(...)]:
    the record whose append is awaited and the incidents the [for] loop has
    still to visit. *)
Record Scan := {
  scanId : nat;
  awaited : Obj;
  remaining : list Obj
}.

(** The four [useState] cells of [App], what [useFirebase] returned at the
    last render, and the world around the component: whether the snapshot
    listener is attached, the suspended scans, every [addDoc] call issued so
    far (tagged with the scan that issued it), the [console.error] lines, and
    the number of scans that have entered the append loop (the tag of the
    next one). *)
Record State := {
  governanceData : GovernanceData;
  incidents : list Obj;
  systemStatus : string;
  isSimulationRunning : bool;
  isAuthReady : bool;
  incidentCollectionRef : option string;
  listening : bool;
  pendingScans : list Scan;
  addDocCalls : list (nat * Obj);
  consoleErrors : list string;
  scanCount : nat
}.

Definition setGovernanceData (v : GovernanceData) (s : State) : State :=
  {| governanceData := v; incidents := incidents s; systemStatus := systemStatus s;
     isSimulationRunning := isSimulationRunning s; isAuthReady := isAuthReady s;
     incidentCollectionRef := incidentCollectionRef s; listening := listening s;
     pendingScans := pendingScans s; addDocCalls := addDocCalls s;
     consoleErrors := consoleErrors s; scanCount := scanCount s |}.

Definition setIncidents (v : list Obj) (s : State) : State :=
  {| governanceData := governanceData s; incidents := v; systemStatus := systemStatus s;
     isSimulationRunning := isSimulationRunning s; isAuthReady := isAuthReady s;
     incidentCollectionRef := incidentCollectionRef s; listening := listening s;
     pendingScans := pendingScans s; addDocCalls := addDocCalls s;
     consoleErrors := consoleErrors s; scanCount := scanCount s |}.

Definition setSystemStatus (v : string) (s : State) : State :=
  {| governanceData := governanceData s; incidents := incidents s; systemStatus := v;
     isSimulationRunning := isSimulationRunning s; isAuthReady := isAuthReady s;
     incidentCollectionRef := incidentCollectionRef s; listening := listening s;
     pendingScans := pendingScans s; addDocCalls := addDocCalls s;
     consoleErrors := consoleErrors s; scanCount := scanCount s |}.

Definition setIsSimulationRunning (v : bool) (s : State) : State :=
  {| governanceData := governanceData s; incidents := incidents s;
     systemStatus := systemStatus s;
     isSimulationRunning := v; isAuthReady := isAuthReady s;
     incidentCollectionRef := incidentCollectionRef s; listening := listening s;
     pendingScans := pendingScans s; addDocCalls := addDocCalls s;
     consoleErrors := consoleErrors s; scanCount := scanCount s |}.

(** What [useFirebase] hands to the component. *)
Definition setHook (ready : bool) (ref : option string) (s : State) : State :=
  {| governanceData := governanceData s; incidents := incidents s;
     systemStatus := systemStatus s;
     isSimulationRunning := isSimulationRunning s; isAuthReady := ready;
     incidentCollectionRef := ref; listening := listening s;
     pendingScans := pendingScans s; addDocCalls := addDocCalls s;
     consoleErrors := consoleErrors s; scanCount := scanCount s |}.

Definition setListening (v : bool) (s : State) : State :=
  {| governanceData := governanceData s; incidents := incidents s;
     systemStatus := systemStatus s;
     isSimulationRunning := isSimulationRunning s; isAuthReady := isAuthReady s;
     incidentCollectionRef := incidentCollectionRef s; listening := v;
     pendingScans := pendingScans s; addDocCalls := addDocCalls s;
     consoleErrors := consoleErrors s; scanCount := scanCount s |}.

Definition setPendingScans (v : list Scan) (s : State) : State :=
  {| governanceData := governanceData s; incidents := incidents s;
     systemStatus := systemStatus s;
     isSimulationRunning := isSimulationRunning s; isAuthReady := isAuthReady s;
     incidentCollectionRef := incidentCollectionRef s; listening := listening s;
     pendingScans := v; addDocCalls := addDocCalls s;
     consoleErrors := consoleErrors s; scanCount := scanCount s |}.

(** [addDoc(incidentCollectionRef, record)] called by scan [id]. *)
Definition addDoc (id : nat) (record : Obj) (s : State) : State :=
  {| governanceData := governanceData s; incidents := incidents s;
     systemStatus := systemStatus s;
     isSimulationRunning := isSimulationRunning s; isAuthReady := isAuthReady s;
     incidentCollectionRef := incidentCollectionRef s; listening := listening s;
     pendingScans := pendingScans s; addDocCalls := addDocCalls s ++ [(id, record)];
     consoleErrors := consoleErrors s; scanCount := scanCount s |}.

Definition console_error (msg : string) (s : State) : State :=
  {| governanceData := governanceData s; incidents := incidents s;
     systemStatus := systemStatus s;
     isSimulationRunning := isSimulationRunning s; isAuthReady := isAuthReady s;
     incidentCollectionRef := incidentCollectionRef s; listening := listening s;
     pendingScans := pendingScans s; addDocCalls := addDocCalls s;
     consoleErrors := consoleErrors s ++ [msg]; scanCount := scanCount s |}.

Definition nextScan (s : State) : State :=
  {| governanceData := governanceData s; incidents := incidents s;
     systemStatus := systemStatus s;
     isSimulationRunning := isSimulationRunning s; isAuthReady := isAuthReady s;
     incidentCollectionRef := incidentCollectionRef s; listening := listening s;
     pendingScans := pendingScans s; addDocCalls := addDocCalls s;
     consoleErrors := consoleErrors s; scanCount := S (scanCount s) |}.

(** The state before the first render commits: the [useState] initial
    values; [now] is the clock read by [new Date()]. *)
Definition init (now : Z) : State :=
  {| governanceData :=
       {| wasteVolume := 0.5; trafficDensity := 0.4;
          lastUpdate := toLocaleTimeString now |};
     incidents := [];
     systemStatus := "Initializing...";
     isSimulationRunning := false;
     isAuthReady := false;
     incidentCollectionRef := None;
     listening := false;
     pendingScans := [];
     addDocCalls := [];
     consoleErrors := [];
     scanCount := 0%nat |}.

(** *** The snapshot listener *)

(** [{ id: doc.id, ...doc.data(), timestamp: ... }]: a later property wins,
    so a stored [id] field replaces [doc.id] and the display string replaces
    the stored timestamp. *)
Definition fetchedIncident (doc : Doc) : Obj :=
  <["timestamp" :=
      VStr (match doc_data doc !! "timestamp" with
            | Some (VTimestamp millis) => toLocaleTimeString millis
            | _ => "N/A"
            end)]>
  (doc_data doc ∪ {["id" := VStr (doc_id doc)]}).

Section WithDateParser.

(** [new Date(string).getTime()]: [None] is [NaN], an invalid date.  For
    strings outside the ISO format the result is left to the JavaScript
    engine, so the parser is a parameter. *)
Variable dateParse : string -> option Z.

(** [new Date(o.timestamp)] for the objects the listener builds, whose
    [timestamp] is always a string. *)
Definition newDate (o : Obj) : option Z :=
  match o !! "timestamp" with
  | Some (VStr s) => dateParse s
  | _ => None
  end.

(** [(a, b) => new Date(b.timestamp) - new Date(a.timestamp)] *)
Definition byTimestampDesc (a b : Obj) : option Z :=
  dateMinus (newDate b) (newDate a).

(** The success callback of [onSnapshot]. *)
Definition onSnapshotNext (docs : list Doc) (s : State) : State :=
  let fetchedIncidents := map fetchedIncident docs in
  setIncidents (Array_sort byTimestampDesc fetchedIncidents) s.

(** The error callback of [onSnapshot]. *)
Definition onSnapshotError (s : State) : State :=
  setSystemStatus "DB Error" (console_error "Error fetching incidents:" s).

(** The effect that follows [isAuthReady] and [incidentCollectionRef]: the
    previous listener, if any, is detached by the cleanup, then the body
    runs. *)
Definition storeEffect (s : State) : State :=
  let s := setListening false s in
  if negb (isAuthReady s) || negb (bool_decide (is_Some (incidentCollectionRef s)))
  then setSystemStatus "Memuat Database..." s
  else setListening true (setIsSimulationRunning true (setSystemStatus "Memantau" s)).

(** *** runDigitalScan *)

(** The [for] loop from the incident it is about to visit up to its first
    [await]: the timestamp field is dropped, [addDoc] is called and the scan
    suspends; with no incident left the function returns. *)
Definition appendLoop (id : nat) (newIncidents : list Obj) (s : State) : State :=
  match newIncidents with
  | [] => s
  | incident :: rest =>
      let incidentToSave := delete "timestamp" incident in
      let s := addDoc id incidentToSave s in
      setPendingScans
        (pendingScans s ++
           [{| scanId := id; awaited := incidentToSave; remaining := rest |}]) s
  end.

(** The simulated sensor reading, computed over the rationals: the rounding of
    the single double operations is left out. *)
Definition nextData (data : GovernanceData) (random1 random2 : Q) (now : Z)
  : GovernanceData :=
  {| wasteVolume := Math_min 1.0 (wasteVolume data + (random1 * 0.2 - 0.08));
     trafficDensity := Math_min 1.0 (trafficDensity data + (random2 * 0.3 - 0.15));
     lastUpdate := toLocaleTimeString now |}.

(** [runDigitalScan] up to its first [await] (or its return).  [random1] and
    [random2] are the two results of [Math.random()]. *)
Definition runDigitalScan (random1 random2 : Q) (now : Z) (s : State) : State :=
  if negb (isSimulationRunning s) || negb (bool_decide (is_Some (incidentCollectionRef s)))
  then s
  else
    let newData := nextData (governanceData s) random1 random2 now in
    let s := setGovernanceData newData s in
    match checkCompliance newData with
    | Build_ComplianceResult _ newIncidents =>
        if (0 <? length newIncidents)%nat
        then
          let s := setSystemStatus "Insiden Terdeteksi" s in
          let id := scanCount s in
          appendLoop id newIncidents (nextScan s)
        else setSystemStatus "Komplian Penuh" s
    end.

(** The continuation of a suspended scan when its [addDoc] promise settles:
    fulfilled, the loop goes on with the next incident; rejected, control
    jumps to the [catch] block, which logs and lets the function return. *)
Definition resumeScan (sc : Scan) (ok : bool) (s : State) : State :=
  if ok
  then appendLoop (scanId sc) (remaining sc) s
  else console_error "Failed to log incident to Firestore:" s.

Definition isScan (id : nat) (sc : Scan) : bool := (scanId sc =? id)%nat.

(** *** Events *)

Inductive Event : Type :=
  | Mounted
      (* the first render is committed; the effects run *)
  | HookUpdate (ready : bool) (ref : option string)
      (* a render in which useFirebase returns these values; the store
         effect runs again when one of them differs from the last render *)
  | TimerFired (random1 random2 : Q) (now : Z)
      (* the 4000 ms interval fires *)
  | AddDocSettled (id : nat) (ok : bool)
      (* the addDoc promise awaited by scan [id] is fulfilled or rejected *)
  | SnapshotNext (docs : list Doc)
      (* the listener delivers the current set of documents *)
  | SnapshotError.
      (* the listener fails; Firestore delivers nothing after that *)

Definition step (s : State) (e : Event) : State :=
  match e with
  | Mounted => storeEffect s
  | HookUpdate ready ref =>
      if bool_decide (ready = isAuthReady s /\ ref = incidentCollectionRef s)
      then s
      else storeEffect (setHook ready ref s)
  | TimerFired random1 random2 now =>
      (* the interval exists only under this condition *)
      if isSimulationRunning s && isAuthReady s
      then runDigitalScan random1 random2 now s
      else s
  | AddDocSettled id ok =>
      match find (isScan id) (pendingScans s) with
      | Some sc =>
          resumeScan sc ok
            (setPendingScans (filter (fun x => scanId x ≠ id) (pendingScans s)) s)
      | None => s
      end
  | SnapshotNext docs =>
      if listening s then onSnapshotNext docs s else s
  | SnapshotError =>
      if listening s then onSnapshotError (setListening false s) else s
  end.

Definition run (s : State) (events : list Event) : State :=
  foldl step s events.

End WithDateParser.

End App.

(** ** The useFirebase hook *)

Module Hook.

(** The globals the hosting page may define: [__app_id], [__firebase_config]
    (here the object [JSON.parse] makes of it, the text being that of a JSON
    object) and [__initial_auth_token]; [None] is [undefined]. *)
Record Globals := {
  app_id : option string;
  firebase_config : option (gmap string string);
  initial_auth_token : option string
}.

(** The four [useState] cells of the hook ([db] and [auth] hold the
    configuration the handles were made from), whether the
    [onAuthStateChanged] callback is registered, and the [console.error]
    lines. *)
Record State := {
  db : option (gmap string string);
  auth : option (gmap string string);
  userId : option string;
  isAuthReady : bool;
  authListener : bool;
  consoleErrors : list string
}.

Definition init : State :=
  {| db := None; auth := None; userId := None; isAuthReady := false;
     authListener := false; consoleErrors := [] |}.

Definition setDb (v : gmap string string) (h : State) : State :=
  {| db := Some v; auth := auth h; userId := userId h; isAuthReady := isAuthReady h;
     authListener := authListener h; consoleErrors := consoleErrors h |}.

Definition setAuth (v : gmap string string) (h : State) : State :=
  {| db := db h; auth := Some v; userId := userId h; isAuthReady := isAuthReady h;
     authListener := authListener h; consoleErrors := consoleErrors h |}.

Definition setUserId (v : string) (h : State) : State :=
  {| db := db h; auth := auth h; userId := Some v; isAuthReady := isAuthReady h;
     authListener := authListener h; consoleErrors := consoleErrors h |}.

Definition setIsAuthReady (v : bool) (h : State) : State :=
  {| db := db h; auth := auth h; userId := userId h; isAuthReady := v;
     authListener := authListener h; consoleErrors := consoleErrors h |}.

Definition registerAuthListener (h : State) : State :=
  {| db := db h; auth := auth h; userId := userId h; isAuthReady := isAuthReady h;
     authListener := true; consoleErrors := consoleErrors h |}.

Definition console_error (msg : string) (h : State) : State :=
  {| db := db h; auth := auth h; userId := userId h; isAuthReady := isAuthReady h;
     authListener := authListener h; consoleErrors := consoleErrors h ++ [msg] |}.

(** A string in a condition: the empty string counts as false. *)
Definition truthy (str : string) : bool := negb (String.eqb str "").

(** [typeof __app_id !== 'undefined' ? __app_id : 'default-app-id'] *)
Definition appId (g : Globals) : string := default "default-app-id" (app_id g).

(** The effect run once after the first render. *)
Definition mountEffect (g : Globals) (h : State) : State :=
  let firebaseConfig := default ∅ (firebase_config g) in
  if (size firebaseConfig =? 0)%nat
  then console_error "Firebase config is missing." h
  else registerAuthListener (setAuth firebaseConfig (setDb firebaseConfig h)).

(** How a sign-in call ends: the promise is fulfilled with a user, or it is
    rejected. *)
Inductive SignIn : Type :=
  | Credential (uid : string)
  | Rejected.

(** The [async] callback given to [onAuthStateChanged], run to its end.
    [user] is [user.uid] or [null]; [custom] and [anonymous] tell how
    [signInWithCustomToken] and [signInAnonymously] end if they are called.
    A rejected [signInAnonymously] is not caught: the callback stops there. *)
Definition onAuthStateChanged (g : Globals) (user : option string)
    (custom anonymous : SignIn) (h : State) : State :=
  match user with
  | None =>
      if from_option truthy false (initial_auth_token g)
      then
        match custom with
        | Credential uid => setIsAuthReady true (setUserId uid h)
        | Rejected =>
            let h :=
              console_error "Custom token sign-in failed, falling back to anonymous:" h in
            match anonymous with
            | Credential uid => setIsAuthReady true (setUserId uid h)
            | Rejected => h
            end
        end
      else
        match anonymous with
        | Credential uid => setIsAuthReady true (setUserId uid h)
        | Rejected => h
        end
  | Some uid => setIsAuthReady true (setUserId uid h)
  end.

(** The memoised [incidentCollectionRef]: the path of the collection, or
    [null]. *)
Definition incidentCollectionRef (g : Globals) (h : State) : option string :=
  match db h, userId h with
  | Some _, Some uid =>
      if truthy uid
      then Some ("artifacts/" +:+ appId g +:+ "/users/" +:+ uid
                 +:+ "/bandung_governance_incidents")
      else None
  | _, _ => None
  end.

Inductive Event : Type :=
  | Mount
  | AuthStateChanged (user : option string) (custom anonymous : SignIn).

Definition step (g : Globals) (h : State) (e : Event) : State :=
  match e with
  | Mount => mountEffect g h
  | AuthStateChanged user custom anonymous =>
      if authListener h then onAuthStateChanged g user custom anonymous h else h
  end.

Definition run (g : Globals) (h : State) (events : list Event) : State :=
  foldl (step g) h events.

(** What the hook hands to [App] in the next render. *)
Definition toApp (g : Globals) (h : State) : App.Event :=
  App.HookUpdate (isAuthReady h) (incidentCollectionRef g h).

End Hook.

(** ** StatusDisplay and DataCard *)

Module View.

(** The icon components imported from lucide-react. *)
Inductive Icon : Type :=
  | ShieldCheck | Truck | BarChart2 | Bell | XCircle | Zap | RefreshCw.

(** What [StatusDisplay] renders: the background class, the icon, the status
    text and the time of the last update. *)
Record Banner := {
  color : string;
  icon : Icon;
  statusText : string;
  lastUpdateText : string
}.

Definition StatusDisplay (s : App.State) : Banner :=
  let isCompliant :=
    (length (App.incidents s) =? 0)%nat
    && String.eqb (App.systemStatus s) "Komplian Penuh" in
  {| color :=
       if (0 <? length (App.incidents s))%nat then "bg-red-600"
       else if isCompliant then "bg-green-600" else "bg-blue-600";
     icon :=
       if (0 <? length (App.incidents s))%nat then XCircle
       else if isCompliant then ShieldCheck else Zap;
     statusText := App.systemStatus s;
     lastUpdateText := lastUpdate (App.governanceData s) |}.

Record Card := {
  title : string;
  valueDisplay : string;
  unit : string;
  cardIcon : Icon;
  valueColor : string
}.

Definition DataCard (title : string) (value : Q) (unit : string) (icon : Icon)
    (isCritical : bool) : Card :=
  {| title := title;
     valueDisplay := toFixed1 (Number_mul value 100);
     unit := unit;
     cardIcon := icon;
     valueColor := if isCritical then "text-red-400" else "text-teal-400" |}.

(** The two cards of the dashboard, with the limits written at the call
    sites. *)
Definition wasteCard (s : App.State) : Card :=
  DataCard "Volume Sampah (Cihampelas)" (wasteVolume (App.governanceData s)) "%" Truck
    (gt (wasteVolume (App.governanceData s)) 0.8).

Definition trafficCard (s : App.State) : Card :=
  DataCard "Kepadatan Lalu Lintas" (trafficDensity (App.governanceData s)) "%" BarChart2
    (gt (trafficDensity (App.governanceData s)) 0.75).

End View.

(** ** Vocabulary of the statements *)

(** The property names of a record as the scan loop hands it to [addDoc]. *)
Definition savedFields : gset string :=
  {[ "type"; "area"; "description"; "status" ]}.

(** The records scan [id] has handed to [addDoc] so far, in call order. *)
Definition callsOf (id : nat) (s : App.State) : list Obj :=
  (filter (fun c => c.1 = id) (App.addDocCalls s)).*2.

(** While a listener is attached the scan loop is enabled and bound to the
    collection. *)
Definition listenerImpliesRunning (s : App.State) : Prop :=
  App.listening s = true ->
  App.isSimulationRunning s = true /\ App.isAuthReady s = true /\
  is_Some (App.incidentCollectionRef s).

(** What the loop will save of an incident has exactly the saved fields. *)
Definition savesFourFields (incident : Obj) : Prop :=
  dom (delete "timestamp" incident) = savedFields.

(** Every record handed to [addDoc] so far has exactly the saved fields,
    and so will every incident a suspended scan has still to visit. *)
Definition onlySavedFields (s : App.State) : Prop :=
  Forall (fun c => dom c.2 = savedFields) (App.addDocCalls s) /\
  Forall (fun sc => Forall savesFourFields (App.remaining sc)) (App.pendingScans s).

(** Scan identifiers are handed out in order: a suspended scan was started
    before the next one to start. *)
Definition pendingBelowCount (s : App.State) : Prop :=
  forall sc, sc ∈ App.pendingScans s -> (App.scanId sc < App.scanCount s)%nat.

(** Scan [id] has run to its end: it was started and is not suspended. *)
Definition finished (id : nat) (s : App.State) : Prop :=
  (forall sc, sc ∈ App.pendingScans s -> App.scanId sc ≠ id) /\
  (id < App.scanCount s)%nat.

(** The records a scan of reading [data] hands to [addDoc], in order. *)
Definition recordsOf (data : GovernanceData) : list Obj :=
  delete "timestamp" <$> incidents (checkCompliance data).

(** Every [addDoc] call carries the tag of a scan that has started. *)
Definition callsBelowCount (s : App.State) : Prop :=
  forall c, c ∈ App.addDocCalls s -> (c.1 < App.scanCount s)%nat.

(** What scan [id] has handed to [addDoc] is the beginning of the records of
    one reading, and what a suspended scan [id] has still to visit is
    their rest. *)
Definition scanFollowsReading (id : nat) (s : App.State) : Prop :=
  exists data,
    callsOf id s `prefix_of` recordsOf data /\
    forall sc, sc ∈ App.pendingScans s -> App.scanId sc = id ->
      callsOf id s ++ (delete "timestamp" <$> App.remaining sc) = recordsOf data.

(** The results of [Math.random()] carried by a timer event lie in [0, 1). *)
Definition randomsInRange (e : App.Event) : Prop :=
  match e with
  | App.TimerFired random1 random2 _ =>
      (0 <= random1)%Q /\ (random1 < 1)%Q /\ (0 <= random2)%Q /\ (random2 < 1)%Q
  | _ => True
  end.

Definition isTimer (e : App.Event) : bool :=
  match e with App.TimerFired _ _ _ => true | _ => false end.

(** How often the timer fires in a trace. *)
Definition timersIn (tr : list App.Event) : nat :=
  length (List.filter isTimer tr).

Definition isDelivery (e : App.Event) : bool :=
  match e with App.SnapshotNext _ => true | _ => false end.

(** The status and the reading belong together: "Komplian Penuh" is shown
    only over a reading within both limits, "Insiden Terdeteksi" only over
    one that breaks a limit. *)
Definition statusMatchesReading (s : App.State) : Prop :=
  (App.systemStatus s = "Komplian Penuh" ->
   gt (wasteVolume (App.governanceData s)) 0.8 = false /\
   gt (trafficDensity (App.governanceData s)) 0.75 = false) /\
  (App.systemStatus s = "Insiden Terdeteksi" ->
   gt (wasteVolume (App.governanceData s)) 0.8 = true \/
   gt (trafficDensity (App.governanceData s)) 0.75 = true).

(** The hook is ready only with a user and with the handles made. *)
Definition readyHasUser (h : Hook.State) : Prop :=
  (Hook.isAuthReady h = true -> is_Some (Hook.userId h) /\ Hook.authListener h = true) /\
  (Hook.authListener h = true -> is_Some (Hook.db h) /\ is_Some (Hook.auth h)).

(** Nothing has been initialised. *)
Definition untouched (h : Hook.State) : Prop :=
  Hook.db h = None /\ Hook.auth h = None /\ Hook.userId h = None /\
  Hook.isAuthReady h = false /\ Hook.authListener h = false.

(** An incident as [checkCompliance] returns it for some reading. *)
Definition isDraft (d : Obj) : Prop :=
  exists data, d ∈ incidents (checkCompliance data).

(** A record is an incident of [checkCompliance], which carried the
    timestamp sentinel, with the timestamp property removed. *)
Definition strippedDraft (o : Obj) : Prop :=
  exists d,
    isDraft d /\ d !! "timestamp" = Some VServerTimestamp /\
    o = delete "timestamp" d.

(** Every record handed to [addDoc] so far is a stripped incident, and what
    the suspended scans have still to visit are incidents. *)
Definition savesDrafts (s : App.State) : Prop :=
  Forall (fun c => strippedDraft c.2) (App.addDocCalls s) /\
  Forall (fun sc => Forall isDraft (App.remaining sc)) (App.pendingScans s).

(** ** Sample inputs *)

Definition reading_081 : GovernanceData :=
  {| wasteVolume := 0.81; trafficDensity := 0.4; lastUpdate := "10:00:00 AM" |}.

Definition reading_breach : GovernanceData :=
  {| wasteVolume := 0.9; trafficDensity := 0.4; lastUpdate := "10:00:00 AM" |}.

Definition reading_at_limits : GovernanceData :=
  {| wasteVolume := 0.8; trafficDensity := 0.75; lastUpdate := "9:15:02 AM" |}.

(** An engine whose [Date] constructor rejects every time-of-day string. *)
Definition invalidDate (_ : string) : option Z := None.

(** Two stored incidents persisted exactly one day apart:
    2025-11-01 10:00:00 UTC and 2025-11-02 10:00:00 UTC. *)
Definition docOlder : App.Doc :=
  {| App.doc_id := "a";
     App.doc_data :=
       <["type" := VStr "Sampah"]>
       (<["status" := VStr "Pelanggaran Berat"]>
       (<["timestamp" := VTimestamp 1761991200000]> ∅)) |}.

Definition docNewer : App.Doc :=
  {| App.doc_id := "b";
     App.doc_data :=
       <["type" := VStr "Lalu Lintas"]>
       (<["status" := VStr "Kritis"]>
       (<["timestamp" := VTimestamp 1762077600000]> ∅)) |}.

(** The component once identity and collection are there. *)
Definition monitoring : App.State :=
  App.run invalidDate (App.init 0)
    [App.Mounted; App.HookUpdate true (Some "incidents")].

(** The listener fails, then the timer fires once more. *)
Definition brokenThenScanned : App.State :=
  App.run invalidDate monitoring [App.SnapshotError; App.TimerFired 0.5 0.5 4000].

(** Four scans in which [Math.random()] returns 0.1 each time. *)
Definition fourLowScans : App.State :=
  App.run invalidDate monitoring
    [App.TimerFired 0.1 0.1 4000; App.TimerFired 0.1 0.1 8000;
     App.TimerFired 0.1 0.1 12000; App.TimerFired 0.1 0.1 16000].

(** Three scans with [Math.random()] = 0.99: the third reading, 0.854 and
    0.841, breaks both rules, so the scan it starts has two incidents. *)
Definition breachTrace : list App.Event :=
  [App.Mounted; App.HookUpdate true (Some "incidents");
   App.TimerFired 0.99 0.99 4000; App.TimerFired 0.99 0.99 8000;
   App.TimerFired 0.99 0.99 12000].

Definition firstBreach : App.State :=
  App.run invalidDate (App.init 0) breachTrace.

(** The scan suspended in [firstBreach]: the waste record is awaited, the
    traffic incident is still to be visited. *)
Definition firstScan : App.Scan :=
  {| App.scanId := 0;
     App.awaited := delete "timestamp" (wasteIncident (App.governanceData firstBreach));
     App.remaining := [trafficIncident (App.governanceData firstBreach)] |}.

(** The reading of the scan after that. *)
Definition secondBreachReading : GovernanceData :=
  App.nextData (App.governanceData firstBreach) 0.99 0.99 16000.

(** The timer fires again before the first [addDoc] of that scan settles. *)
Definition overlapping : App.State :=
  App.step invalidDate firstBreach (App.TimerFired 0.99 0.99 16000).

(** Then both scans get their first append fulfilled, the older one first. *)
Definition interleaved : App.State :=
  App.run invalidDate overlapping
    [App.AddDocSettled 0 true; App.AddDocSettled 1 true].

(** One scan over a calm reading: "Komplian Penuh". *)
Definition calmScan : App.State :=
  App.run invalidDate (App.init 0)
    [App.Mounted; App.HookUpdate true (Some "incidents"); App.TimerFired 0.5 0.5 4000].

(** A page that provides a configuration and a token. *)
Definition pageGlobals : Hook.Globals :=
  {| Hook.app_id := Some "bandung";
     Hook.firebase_config := Some {[ "projectId" := "bandung-raya" ]};
     Hook.initial_auth_token := Some "token-1" |}.

(** A page that provides nothing. *)
Definition barePage : Hook.Globals :=
  {| Hook.app_id := None; Hook.firebase_config := None;
     Hook.initial_auth_token := None |}.

(** The token is refused, the anonymous sign-in succeeds. *)
Definition fallbackTrace : list Hook.Event :=
  [Hook.Mount; Hook.AuthStateChanged None Hook.Rejected (Hook.Credential "anon-7")].

(** Two documents holding records as the scan loop saves them. *)
Definition docSavedWaste : App.Doc :=
  {| App.doc_id := "s1";
     App.doc_data := delete "timestamp" (wasteIncident reading_breach) |}.

Definition docSavedTraffic : App.Doc :=
  {| App.doc_id := "s2";
     App.doc_data := delete "timestamp" (trafficIncident reading_breach) |}.

(** * Properties *)

(** ** Arithmetic of the modelled numbers *)

Lemma gt_true (a b : Q) : gt a b = true <-> (b < a)%Q.
Proof.
  unfold gt. rewrite negb_true_iff, <- not_true_iff_false, Qle_bool_iff.
  split; [apply Qnot_le_lt | apply Qlt_not_le].
Qed.

Lemma gt_false (a b : Q) : gt a b = false <-> (a <= b)%Q.
Proof. unfold gt. rewrite negb_false_iff. apply Qle_bool_iff. Qed.

Lemma Math_min_le_l (a b : Q) : (Math_min a b <= a)%Q.
Proof.
  unfold Math_min. destruct (Qle_bool a b) eqn:E; [apply Qle_refl |].
  apply Qlt_le_weak, Qnot_le_lt. rewrite <- Qle_bool_iff, E. discriminate.
Qed.

Lemma round64_comp (x y : Q) : (x == y)%Q -> round64 x = round64 y.
Proof. intros E. unfold round64. by rewrite (Qred_complete x y E). Qed.

Lemma Number_mul_comp (x y b : Q) : (x == y)%Q -> Number_mul x b = Number_mul y b.
Proof. intros E. unfold Number_mul. by rewrite (round64_comp x y E). Qed.

(** ** checkCompliance *)

Example checkCompliance_initial :
  checkCompliance {| wasteVolume := 0.5; trafficDensity := 0.4; lastUpdate := "" |}
  = {| isOverallCompliant := true; incidents := [] |}.
Proof. reflexivity. Qed.

Example toLocaleTimeString_noon : toLocaleTimeString 43200000 = "12:00:00 PM".
Proof. vm_compute. reflexivity. Qed.

Example toFixed0_81 : toFixed0 (Number_mul 0.81 100) = "81".
Proof. vm_compute. reflexivity. Qed.

(** C7: a reading with [wasteVolume <= 0.8] and [trafficDensity <= 0.75] is
    compliant and yields no incident; the tests are strict, so the limits
    themselves do not fire. *)
Theorem C7_within_limits_no_incident (data : GovernanceData) :
  (wasteVolume data <= 0.8)%Q ->
  (trafficDensity data <= 0.75)%Q ->
  checkCompliance data = {| isOverallCompliant := true; incidents := [] |}.
Proof.
  intros Hw Ht. unfold checkCompliance.
  apply gt_false in Hw, Ht.
  change (maxVolume WASTE_COMPLIANCE) with 0.8%Q.
  change (maxDensity TRAFFIC_COMPLIANCE) with 0.75%Q.
  now rewrite Hw, Ht.
Qed.

(** The limits 0.8 and 0.75 themselves. *)
Lemma C7_at_the_limits :
  checkCompliance reading_at_limits = {| isOverallCompliant := true; incidents := [] |}.
Proof.
  apply (C7_within_limits_no_incident reading_at_limits); apply Qle_refl.
Defined.

Lemma wasteIncident_fields (data : GovernanceData) :
  wasteIncident data !! "type" = Some (VStr "Sampah") /\
  wasteIncident data !! "area" = Some (VStr "Cihampelas") /\
  wasteIncident data !! "description" =
    Some (VStr ("Volume sampah melebihi batas (" +:+ toFixed0 (Number_mul (wasteVolume data) 100)
                +:+ "%) di Cihampelas.")) /\
  wasteIncident data !! "status" = Some (VStr "Pelanggaran Berat") /\
  wasteIncident data !! "timestamp" = Some VServerTimestamp.
Proof. unfold wasteIncident. repeat split; by simplify_map_eq. Qed.

Lemma trafficIncident_fields (data : GovernanceData) :
  trafficIncident data !! "type" = Some (VStr "Lalu Lintas") /\
  trafficIncident data !! "area" = Some (VStr "Dago/Pasteur (Simulasi)") /\
  trafficIncident data !! "description" =
    Some (VStr ("Kepadatan lalu lintas kritis (" +:+ toFixed0 (Number_mul (trafficDensity data) 100)
                +:+ "%). Perlu intervensi sinyal otomatis.")) /\
  trafficIncident data !! "status" = Some (VStr "Kritis") /\
  trafficIncident data !! "timestamp" = Some VServerTimestamp.
Proof. unfold trafficIncident. repeat split; by simplify_map_eq. Qed.

Lemma checkCompliance_incidents (data : GovernanceData) :
  incidents (checkCompliance data) =
    (if gt (wasteVolume data) (maxVolume WASTE_COMPLIANCE) then [wasteIncident data] else [])
    ++ (if gt (trafficDensity data) (maxDensity TRAFFIC_COMPLIANCE)
        then [trafficIncident data] else []).
Proof.
  unfold checkCompliance.
  destruct (gt (wasteVolume data) _), (gt (trafficDensity data) _); reflexivity.
Qed.

Lemma fired_rules_push (data : GovernanceData) :
  (gt (wasteVolume data) (maxVolume WASTE_COMPLIANCE) = true ->
   wasteIncident data ∈ incidents (checkCompliance data)) /\
  (gt (trafficDensity data) (maxDensity TRAFFIC_COMPLIANCE) = true ->
   trafficIncident data ∈ incidents (checkCompliance data)).
Proof.
  rewrite checkCompliance_incidents.
  split; intros ->; set_solver.
Qed.

(** C6 (as the code has it): each rule that fires puts its incident into the
    list, with the rule's description around the current percentage (the
    product with 100 as [toFixed(0)] prints it), the rule's status label and
    the [serverTimestamp()] sentinel as time field; nothing else is in the
    list; an incident has no [observedAt], and the reading's [lastUpdate]
    has no influence on the result. *)
Theorem C6_incident_of_fired_rule (data : GovernanceData) :
  (gt (wasteVolume data) (maxVolume WASTE_COMPLIANCE) = true ->
   exists d,
     d ∈ incidents (checkCompliance data) /\
     d !! "type" = Some (VStr "Sampah") /\
     d !! "description" =
       Some (VStr ("Volume sampah melebihi batas ("
                   +:+ toFixed0 (Number_mul (wasteVolume data) 100)
                   +:+ "%) di " +:+ targetArea WASTE_COMPLIANCE +:+ ".")) /\
     d !! "status" = Some (VStr "Pelanggaran Berat") /\
     d !! "timestamp" = Some VServerTimestamp /\
     d !! "observedAt" = None) /\
  (gt (trafficDensity data) (maxDensity TRAFFIC_COMPLIANCE) = true ->
   exists d,
     d ∈ incidents (checkCompliance data) /\
     d !! "type" = Some (VStr "Lalu Lintas") /\
     d !! "description" =
       Some (VStr ("Kepadatan lalu lintas kritis ("
                   +:+ toFixed0 (Number_mul (trafficDensity data) 100)
                   +:+ "%). Perlu intervensi sinyal otomatis.")) /\
     d !! "status" = Some (VStr (alertLevel TRAFFIC_COMPLIANCE)) /\
     d !! "timestamp" = Some VServerTimestamp /\
     d !! "observedAt" = None) /\
  (forall d,
     d ∈ incidents (checkCompliance data) ->
     d !! "timestamp" = Some VServerTimestamp /\
     d !! "observedAt" = None /\
     ((gt (wasteVolume data) (maxVolume WASTE_COMPLIANCE) = true /\
       d !! "description" =
         Some (VStr ("Volume sampah melebihi batas ("
                     +:+ toFixed0 (Number_mul (wasteVolume data) 100)
                     +:+ "%) di " +:+ targetArea WASTE_COMPLIANCE +:+ ".")) /\
       d !! "status" = Some (VStr "Pelanggaran Berat"))
      \/
      (gt (trafficDensity data) (maxDensity TRAFFIC_COMPLIANCE) = true /\
       d !! "description" =
         Some (VStr ("Kepadatan lalu lintas kritis ("
                     +:+ toFixed0 (Number_mul (trafficDensity data) 100)
                     +:+ "%). Perlu intervensi sinyal otomatis.")) /\
       d !! "status" = Some (VStr (alertLevel TRAFFIC_COMPLIANCE))))) /\
  (forall u,
     checkCompliance {| wasteVolume := wasteVolume data;
                        trafficDensity := trafficDensity data;
                        lastUpdate := u |}
     = checkCompliance data).
Proof.
  destruct (wasteIncident_fields data) as (Wty & _ & Wdesc & Wst & Wts).
  destruct (trafficIncident_fields data) as (Tty & _ & Tdesc & Tst & Tts).
  assert (Wobs : wasteIncident data !! "observedAt" = None)
    by (unfold wasteIncident; by simplify_map_eq).
  assert (Tobs : trafficIncident data !! "observedAt" = None)
    by (unfold trafficIncident; by simplify_map_eq).
  split; [| split; [| split]].
  - intros Hw. exists (wasteIncident data).
    split; [exact (proj1 (fired_rules_push data) Hw) | done].
  - intros Ht. exists (trafficIncident data).
    split; [exact (proj2 (fired_rules_push data) Ht) | done].
  - intros d Hd. rewrite checkCompliance_incidents in Hd.
    apply elem_of_app in Hd as [Hd | Hd].
    + destruct (gt (wasteVolume data) _) eqn:Hw; [| by apply elem_of_nil in Hd].
      apply list_elem_of_singleton in Hd as ->.
      split; [exact Wts |]. split; [exact Wobs |]. left. done.
    + destruct (gt (trafficDensity data) _) eqn:Ht; [| by apply elem_of_nil in Hd].
      apply list_elem_of_singleton in Hd as ->.
      split; [exact Tts |]. split; [exact Tobs |]. right. done.
  - intros u. reflexivity.
Qed.

Lemma C6_incident_of_fired_rule_witness :
  exists d,
    d ∈ incidents (checkCompliance reading_breach) /\
    d !! "type" = Some (VStr "Sampah") /\
    d !! "description" =
      Some (VStr ("Volume sampah melebihi batas ("
                  +:+ toFixed0 (Number_mul (wasteVolume reading_breach) 100)
                  +:+ "%) di " +:+ targetArea WASTE_COMPLIANCE +:+ ".")) /\
    d !! "status" = Some (VStr "Pelanggaran Berat") /\
    d !! "timestamp" = Some VServerTimestamp /\
    d !! "observedAt" = None.
Proof.
  apply (proj1 (C6_incident_of_fired_rule reading_breach)).
  reflexivity.
Defined.

(** C6 as the specification words it fails: the incident of a reading taken
    at "10:00:00 AM" holds that time in none of its fields. *)
Lemma C6_observedAt_counterexample :
  exists d, d ∈ incidents (checkCompliance reading_breach) /\
            forall k, d !! k <> Some (VStr (lastUpdate reading_breach)).
Proof.
  exists (wasteIncident reading_breach). split.
  - apply list_elem_of_singleton. reflexivity.
  - intros k Hk. apply elem_of_map_to_list in Hk.
    vm_compute in Hk.
    repeat (apply elem_of_cons in Hk as [Hk | Hk]; [discriminate Hk |]).
    by apply elem_of_nil in Hk.
Qed.

(** C8 (as the code has it): a reading with [wasteVolume = 0.81] and the
    traffic density within its limit yields exactly one incident; its type
    is the string "Sampah" and its description shows "81". *)
Theorem C8_waste_081_single_incident (data : GovernanceData) :
  (wasteVolume data == 0.81)%Q ->
  (trafficDensity data <= 0.75)%Q ->
  exists d,
    incidents (checkCompliance data) = [d] /\
    d !! "type" = Some (VStr "Sampah") /\
    d !! "description" =
      Some (VStr ("Volume sampah melebihi batas (" +:+ "81" +:+ "%) di Cihampelas.")).
Proof.
  intros Hw Ht. exists (wasteIncident data).
  rewrite checkCompliance_incidents.
  assert (gt (wasteVolume data) (maxVolume WASTE_COMPLIANCE) = true) as ->.
  { apply gt_true. rewrite Hw. reflexivity. }
  assert (gt (trafficDensity data) (maxDensity TRAFFIC_COMPLIANCE) = false) as ->.
  { apply gt_false. exact Ht. }
  split; [reflexivity |].
  destruct (wasteIncident_fields data) as (Hty & _ & Hdesc & _).
  split; [exact Hty |].
  rewrite Hdesc.
  assert (toFixed0 (Number_mul (wasteVolume data) 100) = "81") as ->; [| reflexivity].
  rewrite (Number_mul_comp _ 0.81 100 Hw). vm_compute. reflexivity.
Qed.

Lemma C8_waste_081_single_incident_witness :
  exists d,
    incidents (checkCompliance reading_081) = [d] /\
    d !! "type" = Some (VStr "Sampah") /\
    d !! "description" =
      Some (VStr "Volume sampah melebihi batas (81%) di Cihampelas.").
Proof.
  apply (C8_waste_081_single_incident reading_081).
  - reflexivity.
  - vm_compute. discriminate.
Defined.

(** C8 as the specification words it fails: the single incident of the
    reading 0.81 does not have the type "waste". *)
Lemma C8_type_waste_counterexample :
  ~ (exists d,
       incidents (checkCompliance reading_081) = [d] /\
       d !! "type" = Some (VStr "waste")).
Proof.
  intros (d & Hd & Hty).
  change (incidents (checkCompliance reading_081)) with [wasteIncident reading_081] in Hd.
  injection Hd as <-.
  rewrite (proj1 (wasteIncident_fields reading_081)) in Hty.
  discriminate Hty.
Qed.

(** ** The component: snapshot listener and status *)

Section AppProperties.

Variable dateParse : string -> option Z.

Abbreviation step := (App.step dateParse).
Abbreviation run := (App.run dateParse).

Lemma run_app (s : App.State) (tr1 tr2 : list App.Event) :
  run s (tr1 ++ tr2) = run (run s tr1) tr2.
Proof. apply foldl_app. Qed.

Lemma run_snoc (s : App.State) (tr : list App.Event) (e : App.Event) :
  run s (tr ++ [e]) = step (run s tr) e.
Proof. apply run_app. Qed.

(** A property that holds initially and is kept by every event holds in
    every reachable state. *)
Lemma reachable_ind (P : App.State -> Prop) (s0 : App.State) :
  P s0 ->
  (forall s e, P s -> P (step s e)) ->
  forall tr, P (run s0 tr).
Proof.
  intros H0 Hstep tr. induction tr as [| e tr IH] using rev_ind; [exact H0 |].
  rewrite run_snoc. by apply Hstep.
Qed.

Lemma runDigitalScan_hook_fields (r1 r2 : Q) (now : Z) (s : App.State) :
  let s' := App.runDigitalScan r1 r2 now s in
  App.listening s' = App.listening s /\
  App.isSimulationRunning s' = App.isSimulationRunning s /\
  App.isAuthReady s' = App.isAuthReady s /\
  App.incidentCollectionRef s' = App.incidentCollectionRef s /\
  App.incidents s' = App.incidents s /\
  App.consoleErrors s' = App.consoleErrors s.
Proof.
  unfold App.runDigitalScan.
  destruct (negb _ || negb _); [done |].
  destruct (checkCompliance _) as [c [| d rest]]; cbn; done.
Qed.

Lemma appendLoop_fields (id : nat) (l : list Obj) (s : App.State) :
  let s' := App.appendLoop id l s in
  App.listening s' = App.listening s /\
  App.isSimulationRunning s' = App.isSimulationRunning s /\
  App.isAuthReady s' = App.isAuthReady s /\
  App.incidentCollectionRef s' = App.incidentCollectionRef s /\
  App.incidents s' = App.incidents s /\
  App.systemStatus s' = App.systemStatus s /\
  App.governanceData s' = App.governanceData s /\
  App.consoleErrors s' = App.consoleErrors s /\
  App.scanCount s' = App.scanCount s.
Proof. destruct l; cbn; done. Qed.

Lemma settle_fields (id : nat) (ok : bool) (s : App.State) :
  let s' := step s (App.AddDocSettled id ok) in
  App.listening s' = App.listening s /\
  App.isSimulationRunning s' = App.isSimulationRunning s /\
  App.isAuthReady s' = App.isAuthReady s /\
  App.incidentCollectionRef s' = App.incidentCollectionRef s /\
  App.incidents s' = App.incidents s /\
  App.systemStatus s' = App.systemStatus s /\
  App.governanceData s' = App.governanceData s /\
  App.scanCount s' = App.scanCount s.
Proof.
  cbn. destruct (find _ _) as [sc |]; [| done].
  unfold App.resumeScan. destruct ok; [| cbn; done].
  destruct (App.remaining sc); cbn; done.
Qed.

Lemma listenerImpliesRunning_step (s : App.State) (e : App.Event) :
  listenerImpliesRunning s -> listenerImpliesRunning (step s e).
Proof.
  unfold listenerImpliesRunning. intros Inv.
  destruct e as [| ready ref | r1 r2 now | id ok | docs |].
  - cbn. unfold App.storeEffect. cbn.
    destruct (App.isAuthReady s) eqn:E1; cbn; [| done].
    destruct (App.incidentCollectionRef s) eqn:E2; cbn; [| done].
    intros _. rewrite E1, E2. repeat split. by eexists.
  - cbn. case_bool_decide; [exact Inv |].
    unfold App.storeEffect. cbn.
    destruct ready; cbn; [| done].
    destruct ref; cbn; [| done].
    intros _. repeat split. by eexists.
  - cbn. destruct (_ && _); [| done].
    destruct (runDigitalScan_hook_fields r1 r2 now s) as (-> & -> & -> & -> & _). done.
  - destruct (settle_fields id ok s) as (-> & -> & -> & -> & _). done.
  - cbn. destruct (App.listening s) eqn:E; cbn; [| congruence].
    intros _. by apply Inv.
  - cbn. destruct (App.listening s) eqn:E; cbn; congruence.
Qed.

Lemma listenerImpliesRunning_reachable (now : Z) (tr : list App.Event) :
  listenerImpliesRunning (run (App.init now) tr).
Proof.
  apply reachable_ind; [done |]. apply listenerImpliesRunning_step.
Qed.

(** C9: when the listener reports an error, the status becomes "DB Error"
    and nothing else of the component changes: the incident list is the one
    of the last delivery, the sensor data, the scan loop and the pending
    appends are as before. *)
Theorem C9_snapshot_error_keeps_feed (s : App.State) :
  App.listening s = true ->
  let s' := step s App.SnapshotError in
  App.systemStatus s' = "DB Error" /\
  App.incidents s' = App.incidents s /\
  App.governanceData s' = App.governanceData s /\
  App.isSimulationRunning s' = App.isSimulationRunning s /\
  App.pendingScans s' = App.pendingScans s /\
  App.addDocCalls s' = App.addDocCalls s.
Proof. intros Hl. cbn. rewrite Hl. cbn. done. Qed.

(** C5 (as the code has it): an error of the listener sets the status to
    "DB Error", and the next scan that runs replaces it by
    "Insiden Terdeteksi" or "Komplian Penuh" although no listener is
    attached any more. *)
Theorem C5_scan_overwrites_db_error (now : Z) (tr : list App.Event)
    (random1 random2 : Q) (now' : Z) :
  let s := run (App.init now) tr in
  App.listening s = true ->
  let s1 := step s App.SnapshotError in
  let s2 := step s1 (App.TimerFired random1 random2 now') in
  App.systemStatus s1 = "DB Error" /\
  App.listening s2 = false /\
  (App.systemStatus s2 = "Insiden Terdeteksi" \/ App.systemStatus s2 = "Komplian Penuh").
Proof.
  intros s Hl s1 s2.
  destruct (listenerImpliesRunning_reachable now tr Hl) as (Hrun & Hready & Href).
  fold s in Hrun, Hready, Href.
  subst s1 s2. cbn. rewrite Hl. cbn. rewrite Hrun, Hready. cbn.
  split; [done |].
  unfold App.runDigitalScan. cbn. rewrite Hrun.
  rewrite (bool_decide_eq_true_2 _ Href). cbn.
  destruct (checkCompliance _) as [c [| d rest]]; cbn; auto.
Qed.

End AppProperties.

Lemma C9_snapshot_error_keeps_feed_witness :
  App.systemStatus (App.step invalidDate monitoring App.SnapshotError) = "DB Error" /\
  App.incidents (App.step invalidDate monitoring App.SnapshotError) = App.incidents monitoring.
Proof.
  destruct (C9_snapshot_error_keeps_feed invalidDate monitoring) as (H1 & H2 & _).
  - reflexivity.
  - split; [exact H1 | exact H2].
Defined.

Lemma C5_scan_overwrites_db_error_witness :
  App.systemStatus (App.step invalidDate monitoring App.SnapshotError) = "DB Error" /\
  App.listening brokenThenScanned = false /\
  (App.systemStatus brokenThenScanned = "Insiden Terdeteksi" \/
   App.systemStatus brokenThenScanned = "Komplian Penuh").
Proof.
  apply (C5_scan_overwrites_db_error invalidDate 0
           [App.Mounted; App.HookUpdate true (Some "incidents")] 0.5 0.5 4000).
  reflexivity.
Defined.

(** C5 as the specification words it fails: the listener has failed and
    was not attached again, a scan has run since, and the status is
    "Komplian Penuh", not "DB Error". *)
Lemma C5_db_error_overridden_counterexample :
  App.listening brokenThenScanned = false /\
  App.systemStatus brokenThenScanned = "Komplian Penuh" /\
  App.systemStatus brokenThenScanned <> "DB Error".
Proof. vm_compute. repeat split. discriminate. Qed.

(** ** The simulator *)

(** C2 (the code at a failing input): four scans with [Math.random()] = 0.1
    from the initial reading bring the traffic density to -0.08: the
    simulator bounds a field from above only. *)
Theorem C2_traffic_density_below_zero :
  (trafficDensity (App.governanceData fourLowScans) == -0.08)%Q /\
  (trafficDensity (App.governanceData fourLowScans) < 0)%Q.
Proof. split; vm_compute; reflexivity. Qed.

Lemma nextData_at_most_one (data : GovernanceData) (r1 r2 : Q) (now : Z) :
  (wasteVolume (App.nextData data r1 r2 now) <= 1)%Q /\
  (trafficDensity (App.nextData data r1 r2 now) <= 1)%Q.
Proof.
  split; (eapply Qle_trans; [apply Math_min_le_l | vm_compute; discriminate]).
Qed.

(** ** The scan loop *)

(** Membership in an explicit key set, key by key. *)
Ltac saved_dom :=
  let k := fresh "k" in
  let H := fresh "H" in
  apply set_eq; intros k;
  rewrite elem_of_difference, !elem_of_union, !elem_of_singleton;
  split;
  [ intros [[-> | [-> | [-> | [-> | [-> | H]]]]] ?];
    [auto 10 | auto 10 | auto 10 | auto 10 | congruence | by apply not_elem_of_empty in H]
  | intros [[[-> | ->] | ->] | ->]; (split; [auto 10 | discriminate]) ].

Lemma wasteIncident_saved (data : GovernanceData) :
  dom (delete "timestamp" (wasteIncident data)) = savedFields.
Proof.
  unfold wasteIncident, savedFields.
  rewrite dom_delete_L, !dom_insert_L, dom_empty_L.
  saved_dom.
Qed.

Lemma trafficIncident_saved (data : GovernanceData) :
  dom (delete "timestamp" (trafficIncident data)) = savedFields.
Proof.
  unfold trafficIncident, savedFields.
  rewrite dom_delete_L, !dom_insert_L, dom_empty_L.
  saved_dom.
Qed.

Lemma checkCompliance_savesFourFields (data : GovernanceData) :
  Forall savesFourFields (incidents (checkCompliance data)).
Proof.
  rewrite checkCompliance_incidents. apply Forall_app. split.
  - destruct (gt _ _); [| constructor].
    constructor; [apply wasteIncident_saved | constructor].
  - destruct (gt _ _); [| constructor].
    constructor; [apply trafficIncident_saved | constructor].
Qed.

Section ScanLoop.

Variable dateParse : string -> option Z.

Abbreviation step := (App.step dateParse).
Abbreviation run := (App.run dateParse).

Lemma appendLoop_onlySavedFields (id : nat) (l : list Obj) (s : App.State) :
  Forall savesFourFields l ->
  onlySavedFields s ->
  onlySavedFields (App.appendLoop id l s).
Proof.
  intros Hl [Hc Hp]. destruct l as [| d rest]; [by split |].
  apply Forall_cons in Hl as [Hd Hrest]. split; cbn.
  - apply Forall_app. split; [exact Hc |]. by constructor.
  - apply Forall_app. split; [exact Hp |]. by constructor.
Qed.

Lemma find_isScan_Some (id : nat) (l : list App.Scan) (sc : App.Scan) :
  find (App.isScan id) l = Some sc -> sc ∈ l /\ App.scanId sc = id.
Proof.
  intros H. apply find_some in H as [Hin Hid].
  split; [by apply list_elem_of_In |].
  unfold App.isScan in Hid. by apply Nat.eqb_eq in Hid.
Qed.

Lemma onlySavedFields_step (s : App.State) (e : App.Event) :
  onlySavedFields s -> onlySavedFields (step s e).
Proof.
  intros Inv. destruct e as [| ready ref | r1 r2 now | id ok | docs |]; cbn.
  - unfold App.storeEffect. destruct (negb _ || negb _); exact Inv.
  - case_bool_decide; [exact Inv |].
    unfold App.storeEffect. destruct (negb _ || negb _); exact Inv.
  - destruct (_ && _); [| exact Inv].
    unfold App.runDigitalScan. destruct (negb _ || negb _); [exact Inv |].
    pose proof (checkCompliance_savesFourFields
                  (App.nextData (App.governanceData s) r1 r2 now)) as Hall.
    destruct (checkCompliance _) as [c l]. cbn in Hall.
    destruct (0 <? length l)%nat; [| exact Inv].
    apply appendLoop_onlySavedFields; [exact Hall | exact Inv].
  - destruct (find _ _) as [sc |] eqn:Hf; [| exact Inv].
    apply find_isScan_Some in Hf as [Hin _].
    destruct Inv as [Hc Hp].
    assert (Hsc : Forall savesFourFields (App.remaining sc)).
    { rewrite Forall_forall in Hp. by apply Hp. }
    assert (Inv' : onlySavedFields
                     (App.setPendingScans
                        (filter (fun x => App.scanId x ≠ id) (App.pendingScans s)) s)).
    { split; [exact Hc |]. cbn.
      rewrite Forall_forall in Hp |- *. intros x Hx.
      apply list_elem_of_filter in Hx as [_ Hx]. by apply Hp. }
    unfold App.resumeScan. destruct ok.
    + by apply appendLoop_onlySavedFields.
    + exact Inv'.
  - destruct (App.listening s); exact Inv.
  - destruct (App.listening s); exact Inv.
Qed.

Lemma callsOf_addDoc_other (id id' : nat) (o : Obj) (s : App.State) :
  id' ≠ id -> callsOf id (App.addDoc id' o s) = callsOf id s.
Proof.
  intros Hne. unfold callsOf. cbn.
  rewrite filter_app, filter_cons_False, filter_nil, app_nil_r; [done |].
  cbn. done.
Qed.

Lemma appendLoop_other (id id' : nat) (l : list Obj) (s : App.State) :
  id' ≠ id ->
  finished id s ->
  finished id (App.appendLoop id' l s) /\
  callsOf id (App.appendLoop id' l s) = callsOf id s.
Proof.
  intros Hne [Hp Hc]. destruct l as [| d rest]; [by repeat split |].
  split; [split |]; cbn.
  - intros sc [Hsc | Hsc]%elem_of_app; [by apply Hp |].
    apply list_elem_of_singleton in Hsc as ->. cbn. exact Hne.
  - exact Hc.
  - by apply callsOf_addDoc_other.
Qed.

Lemma finished_step (id : nat) (s : App.State) (e : App.Event) :
  finished id s ->
  finished id (step s e) /\ callsOf id (step s e) = callsOf id s.
Proof.
  intros Hf. destruct e as [| ready ref | r1 r2 now | id' ok | docs |]; cbn.
  - unfold App.storeEffect. destruct (negb _ || negb _); by split.
  - case_bool_decide; [by split |].
    unfold App.storeEffect. destruct (negb _ || negb _); by split.
  - destruct (_ && _); [| by split].
    unfold App.runDigitalScan. destruct (negb _ || negb _); [by split |].
    destruct (checkCompliance _) as [c l].
    destruct (0 <? length l)%nat; [| by split].
    destruct Hf as [Hp Hc].
    match goal with
    | |- finished _ (App.appendLoop ?i _ ?s1) /\ _ =>
        destruct (appendLoop_other id i l s1) as [H1 H2]
    end.
    + cbn. lia.
    + split; cbn; [exact Hp | lia].
    + split; [exact H1 | rewrite H2; reflexivity].
  - destruct (find _ _) as [sc |] eqn:Hfind; [| by split].
    apply find_isScan_Some in Hfind as [Hin Hid].
    assert (Hne : id' ≠ id) by (rewrite <- Hid; by apply Hf).
    assert (Hf' : finished id
                    (App.setPendingScans
                       (filter (fun x => App.scanId x ≠ id') (App.pendingScans s)) s)).
    { destruct Hf as [Hp Hc]. split; [| exact Hc]. cbn.
      intros x [_ Hx]%list_elem_of_filter. by apply Hp. }
    unfold App.resumeScan. destruct ok.
    + rewrite Hid.
      destruct (appendLoop_other id id' (App.remaining sc) _ Hne Hf') as [H1 H2].
      split; [exact H1 | rewrite H2; reflexivity].
    + by split.
  - destruct (App.listening s); by split.
  - destruct (App.listening s); by split.
Qed.

(** A scan that has run to its end never calls [addDoc] again. *)
Lemma finished_forever (id : nat) (tr : list App.Event) (s : App.State) :
  finished id s -> callsOf id (run s tr) = callsOf id s.
Proof.
  revert s. induction tr as [| e tr IH]; intros s Hf; [done |].
  cbn. destruct (finished_step id s e Hf) as [Hf' Hcalls].
  unfold run in IH. rewrite (IH _ Hf'). exact Hcalls.
Qed.

Lemma pendingBelowCount_appendLoop (id : nat) (l : list Obj) (s : App.State) :
  (id < App.scanCount s)%nat ->
  pendingBelowCount s ->
  pendingBelowCount (App.appendLoop id l s).
Proof.
  intros Hid Hp. destruct l as [| d rest]; [exact Hp |].
  intros sc [Hsc | Hsc]%elem_of_app; cbn; [by apply Hp |].
  apply list_elem_of_singleton in Hsc as ->. exact Hid.
Qed.

Lemma pendingBelowCount_step (s : App.State) (e : App.Event) :
  pendingBelowCount s -> pendingBelowCount (step s e).
Proof.
  intros Hp. destruct e as [| ready ref | r1 r2 now | id ok | docs |]; cbn.
  - unfold App.storeEffect. destruct (negb _ || negb _); exact Hp.
  - case_bool_decide; [exact Hp |].
    unfold App.storeEffect. destruct (negb _ || negb _); exact Hp.
  - destruct (_ && _); [| exact Hp].
    unfold App.runDigitalScan. destruct (negb _ || negb _); [exact Hp |].
    destruct (checkCompliance _) as [c l].
    destruct (0 <? length l)%nat; [| exact Hp].
    apply pendingBelowCount_appendLoop; [cbn; lia |].
    intros sc Hsc. cbn. specialize (Hp sc Hsc). cbn in Hsc. lia.
  - destruct (find _ _) as [sc |] eqn:Hfind; [| exact Hp].
    apply find_isScan_Some in Hfind as [Hin Hid].
    assert (Hp' : pendingBelowCount
                    (App.setPendingScans
                       (filter (fun x => App.scanId x ≠ id) (App.pendingScans s)) s)).
    { intros x [_ Hx]%list_elem_of_filter. by apply Hp. }
    unfold App.resumeScan. destruct ok; [| exact Hp'].
    apply pendingBelowCount_appendLoop; [| exact Hp'].
    cbn. by apply Hp.
  - destruct (App.listening s); exact Hp.
  - destruct (App.listening s); exact Hp.
Qed.

Lemma pendingBelowCount_reachable (now : Z) (tr : list App.Event) :
  pendingBelowCount (run (App.init now) tr).
Proof.
  apply reachable_ind; [| apply pendingBelowCount_step].
  intros sc Hsc. by apply elem_of_nil in Hsc.
Qed.

(** X4: In every reachable state both fields of the reading are at most 1. *)
Lemma reachable_at_most_one (now : Z) (tr : list App.Event) :
  (wasteVolume (App.governanceData (run (App.init now) tr)) <= 1)%Q /\
  (trafficDensity (App.governanceData (run (App.init now) tr)) <= 1)%Q.
Proof.
  apply (reachable_ind dateParse
           (fun s => (wasteVolume (App.governanceData s) <= 1)%Q /\
                     (trafficDensity (App.governanceData s) <= 1)%Q)).
  { split; vm_compute; discriminate. }
  intros s e Hs. destruct e as [| ready ref | r1 r2 t | id ok | docs |]; cbn.
  - unfold App.storeEffect. destruct (negb _ || negb _); exact Hs.
  - case_bool_decide; [exact Hs |].
    unfold App.storeEffect. destruct (negb _ || negb _); exact Hs.
  - destruct (_ && _); [| exact Hs].
    unfold App.runDigitalScan. destruct (negb _ || negb _); [exact Hs |].
    pose proof (nextData_at_most_one (App.governanceData s) r1 r2 t) as Hn.
    destruct (checkCompliance _) as [c [| d rest]]; cbn; exact Hn.
  - destruct (settle_fields dateParse id ok s) as (_ & _ & _ & _ & _ & _ & Hg & _).
    cbn in Hg. rewrite Hg. exact Hs.
  - destruct (App.listening s); exact Hs.
  - destruct (App.listening s); exact Hs.
Qed.

Lemma timer_agree (s1 s2 : App.State) (r1 r2 : Q) (t : Z) :
  App.isSimulationRunning s1 = App.isSimulationRunning s2 ->
  App.isAuthReady s1 = App.isAuthReady s2 ->
  App.incidentCollectionRef s1 = App.incidentCollectionRef s2 ->
  App.governanceData s1 = App.governanceData s2 ->
  App.systemStatus s1 = App.systemStatus s2 ->
  App.scanCount s1 = App.scanCount s2 ->
  App.addDocCalls s1 = App.addDocCalls s2 ->
  let a := step s1 (App.TimerFired r1 r2 t) in
  let b := step s2 (App.TimerFired r1 r2 t) in
  App.governanceData a = App.governanceData b /\
  App.systemStatus a = App.systemStatus b /\
  App.addDocCalls a = App.addDocCalls b.
Proof.
  intros Hrun Hready Href Hdata Hst Hcount Hcalls. cbn.
  unfold App.runDigitalScan. rewrite Hrun, Hready, Href, Hdata.
  destruct (_ && _); [| done].
  destruct (negb _ || negb _); [done |].
  destruct (checkCompliance _) as [c [| d rest]]; cbn; [done |].
  by rewrite Hcount, Hcalls.
Qed.

(** C4: when the [addDoc] awaited by a scan is rejected, the failure is
    logged, the scan never calls [addDoc] again (its remaining incidents are
    dropped), the scan loop stays enabled, and the next firing of the timer
    does exactly what it would have done without the failure. *)
Theorem C4_failed_append_aborts_only_its_scan
    (now : Z) (tr : list App.Event) (id : nat) (sc : App.Scan) :
  let s := run (App.init now) tr in
  find (App.isScan id) (App.pendingScans s) = Some sc ->
  let s' := step s (App.AddDocSettled id false) in
  App.consoleErrors s' =
    App.consoleErrors s ++ ["Failed to log incident to Firestore:"] /\
  (forall tr', callsOf id (run s' tr') = callsOf id s) /\
  App.isSimulationRunning s' = App.isSimulationRunning s /\
  App.isAuthReady s' = App.isAuthReady s /\
  (forall r1 r2 t,
     let a := step s' (App.TimerFired r1 r2 t) in
     let b := step s (App.TimerFired r1 r2 t) in
     App.governanceData a = App.governanceData b /\
     App.systemStatus a = App.systemStatus b /\
     App.addDocCalls a = App.addDocCalls b).
Proof.
  intros s Hfind s'.
  pose proof (pendingBelowCount_reachable now tr) as Hbelow. fold s in Hbelow.
  pose proof (find_isScan_Some _ _ _ Hfind) as [Hin Hid].
  assert (Hs' : s' = App.console_error "Failed to log incident to Firestore:"
                       (App.setPendingScans
                          (filter (fun x => App.scanId x ≠ id) (App.pendingScans s)) s)).
  { subst s'. cbn. fold s. rewrite Hfind. reflexivity. }
  assert (Hfin : finished id s').
  { rewrite Hs'. split; cbn.
    - intros x [Hx _]%list_elem_of_filter. exact Hx.
    - rewrite <- Hid. by apply Hbelow. }
  split; [by rewrite Hs' |].
  split.
  { intros tr'. rewrite (finished_forever id tr' s' Hfin). by rewrite Hs'. }
  split; [by rewrite Hs' |].
  split; [by rewrite Hs' |].
  intros r1 r2 t. apply timer_agree; by rewrite Hs'.
Qed.

(** When the awaited [addDoc] is fulfilled, the scan hands the record of its
    next incident to [addDoc], if it has one left. *)
Lemma settled_append_issues_next (s : App.State) (id : nat) (sc : App.Scan) :
  find (App.isScan id) (App.pendingScans s) = Some sc ->
  App.addDocCalls (step s (App.AddDocSettled id true)) =
    App.addDocCalls s ++
      match App.remaining sc with
      | [] => []
      | d :: _ => [(id, delete "timestamp" d)]
      end.
Proof.
  intros Hfind. cbn. rewrite Hfind.
  apply find_isScan_Some in Hfind as [_ ->].
  destruct (App.remaining sc); cbn; [by rewrite app_nil_r | done].
Qed.

(** C3 (as the code has it): the timer callback has no busy test.  Whenever
    the timer fires while the loop is enabled and the new reading breaks a
    rule, the scan starts its appends at once, whatever scans are still
    suspended; only the appends of one scan are sequential, the next record
    being handed to [addDoc] when the previous call is fulfilled. *)
Theorem C3_timer_starts_scan_while_others_pending
    (s : App.State) (r1 r2 : Q) (t : Z) (d : Obj) (rest : list Obj) :
  App.isSimulationRunning s = true ->
  App.isAuthReady s = true ->
  is_Some (App.incidentCollectionRef s) ->
  incidents (checkCompliance (App.nextData (App.governanceData s) r1 r2 t)) = d :: rest ->
  let s' := step s (App.TimerFired r1 r2 t) in
  App.pendingScans s' =
    App.pendingScans s ++
      [{| App.scanId := App.scanCount s;
          App.awaited := delete "timestamp" d;
          App.remaining := rest |}] /\
  App.addDocCalls s' =
    App.addDocCalls s ++ [(App.scanCount s, delete "timestamp" d)] /\
  (forall id sc,
     find (App.isScan id) (App.pendingScans s') = Some sc ->
     App.addDocCalls (step s' (App.AddDocSettled id true)) =
       App.addDocCalls s' ++
         match App.remaining sc with
         | [] => []
         | d' :: _ => [(id, delete "timestamp" d')]
         end).
Proof.
  intros Hrun Hready Href Hinc s'.
  assert (Hs' : App.pendingScans s' =
                  App.pendingScans s ++
                    [{| App.scanId := App.scanCount s;
                        App.awaited := delete "timestamp" d;
                        App.remaining := rest |}] /\
                App.addDocCalls s' =
                  App.addDocCalls s ++ [(App.scanCount s, delete "timestamp" d)]).
  { subst s'. cbn. rewrite Hrun, Hready. cbn.
    unfold App.runDigitalScan. rewrite Hrun, (bool_decide_eq_true_2 _ Href). cbn.
    destruct (checkCompliance _) as [c l]. cbn in Hinc. subst l. cbn. done. }
  destruct Hs' as [Hp Hc].
  split; [exact Hp |]. split; [exact Hc |].
  intros id sc Hfind. by apply settled_append_issues_next.
Qed.

End ScanLoop.

Example firstBreach_reading :
  (wasteVolume (App.governanceData firstBreach) == 0.854)%Q /\
  (trafficDensity (App.governanceData firstBreach) == 0.841)%Q /\
  App.systemStatus firstBreach = "Insiden Terdeteksi" /\
  App.scanId <$> App.pendingScans firstBreach = [0%nat].
Proof. vm_compute. repeat split. Qed.

Lemma C4_failed_append_aborts_only_its_scan_witness :
  find (App.isScan 0) (App.pendingScans firstBreach) = Some firstScan /\
  App.consoleErrors (App.step invalidDate firstBreach (App.AddDocSettled 0 false)) =
    App.consoleErrors firstBreach ++ ["Failed to log incident to Firestore:"] /\
  (forall tr',
     callsOf 0 (App.run invalidDate
                  (App.step invalidDate firstBreach (App.AddDocSettled 0 false)) tr')
     = callsOf 0 firstBreach).
Proof.
  unfold firstBreach.
  assert (H : find (App.isScan 0)
                (App.pendingScans (App.run invalidDate (App.init 0) breachTrace))
              = Some firstScan)
    by (vm_compute; reflexivity).
  split; [exact H |].
  destruct (C4_failed_append_aborts_only_its_scan invalidDate 0 breachTrace
              0%nat firstScan H) as (Hlog & Hcalls & _).
  split; [exact Hlog | exact Hcalls].
Defined.

Lemma C3_timer_starts_scan_while_others_pending_witness :
  App.pendingScans firstBreach = [firstScan] /\
  App.pendingScans overlapping =
    App.pendingScans firstBreach ++
      [{| App.scanId := App.scanCount firstBreach;
          App.awaited := delete "timestamp" (wasteIncident secondBreachReading);
          App.remaining := [trafficIncident secondBreachReading] |}].
Proof.
  split; [vm_compute; reflexivity |].
  refine (proj1 (C3_timer_starts_scan_while_others_pending invalidDate
                   firstBreach 0.99 0.99 16000
                   (wasteIncident secondBreachReading)
                   [trafficIncident secondBreachReading] _ _ _ _)).
  - vm_compute. reflexivity.
  - vm_compute. reflexivity.
  - vm_compute. eexists. reflexivity.
  - vm_compute. reflexivity.
Defined.

(** C3 as the specification words it fails: the second scan starts while
    the first is still suspended at its first append, and the [addDoc] calls
    of the two scans alternate. *)
Lemma C3_overlap_counterexample :
  App.scanId <$> App.pendingScans firstBreach = [0%nat] /\
  App.scanId <$> App.pendingScans overlapping = [0%nat; 1%nat] /\
  (App.addDocCalls interleaved).*1 = [0%nat; 1%nat; 0%nat; 1%nat].
Proof. vm_compute. repeat split. Qed.

(** ** The incident feed *)

Section Feed.

Variable dateParse : string -> option Z.

Lemma sortInsert_Permutation {A} (cmp : A -> A -> option Z) (x : A) (l : list A) :
  sortInsert cmp x l ≡ₚ x :: l.
Proof.
  induction l as [| y l IH]; cbn; [done |].
  destruct (sortsAfter cmp x y); [| done].
  rewrite IH. apply Permutation_swap.
Qed.

(** Sorting rearranges, it neither drops nor duplicates. *)
Lemma Array_sort_Permutation {A} (cmp : A -> A -> option Z) (l : list A) :
  Array_sort cmp l ≡ₚ l.
Proof.
  induction l as [| x l IH]; cbn; [done |].
  rewrite sortInsert_Permutation. by rewrite IH.
Qed.

(** When the comparator never asks for a swap, the array is left as it is. *)
Lemma Array_sort_unchanged {A} (cmp : A -> A -> option Z) (l : list A) :
  (forall x y, sortsAfter cmp x y = false) -> Array_sort cmp l = l.
Proof.
  intros H. induction l as [| x l IH]; cbn; [done |].
  unfold Array_sort in IH. rewrite IH.
  destruct l as [| y l]; cbn; [done |]. by rewrite H.
Qed.

(** Two incidents that show the same time string are never swapped,
    whatever the engine makes of that string. *)
Lemma same_time_string_no_swap (a b : Obj) (str : string) :
  a !! "timestamp" = Some (VStr str) ->
  b !! "timestamp" = Some (VStr str) ->
  sortsAfter (App.byTimestampDesc dateParse) a b = false.
Proof.
  intros Ha Hb. unfold sortsAfter, App.byTimestampDesc, App.newDate.
  rewrite Ha, Hb. destruct (dateParse str) as [v |]; cbn; [| done].
  rewrite Z.sub_diag. done.
Qed.

Lemma fetchedIncident_timestamp (doc : App.Doc) :
  App.fetchedIncident doc !! "timestamp" =
    Some (VStr (match App.doc_data doc !! "timestamp" with
                | Some (VTimestamp millis) => toLocaleTimeString millis
                | _ => "N/A"
                end)).
Proof. unfold App.fetchedIncident. by rewrite lookup_insert_eq. Qed.

Lemma fetchedIncident_id (doc : App.Doc) :
  App.doc_data doc !! "id" = None ->
  App.fetchedIncident doc !! "id" = Some (VStr (App.doc_id doc)).
Proof.
  intros Hid. unfold App.fetchedIncident.
  rewrite lookup_insert_ne by done.
  rewrite lookup_union_r by done. by rewrite lookup_singleton_eq.
Qed.

(** X16: The feed holds the delivered documents, each once: with distinct
    document ids and no stored [id] field, no id occurs twice. *)
Lemma feed_ids_NoDup (docs : list App.Doc) (s : App.State) :
  NoDup (App.doc_id <$> docs) ->
  Forall (fun doc => App.doc_data doc !! "id" = None) docs ->
  NoDup ((fun o => o !! "id") <$> App.incidents (App.onSnapshotNext dateParse docs s)).
Proof.
  intros Hnd Hno. cbn.
  rewrite Array_sort_Permutation.
  rewrite <- list_fmap_compose.
  assert (Heq : (fun o : Obj => o !! "id") ∘ App.fetchedIncident <$> docs
                = (fun i => Some (VStr i)) <$> (App.doc_id <$> docs)).
  { rewrite <- list_fmap_compose. apply Forall_fmap_ext_1.
    eapply Forall_impl; [exact Hno |]. intros doc Hdoc. cbn.
    by apply fetchedIncident_id. }
  rewrite Heq. apply NoDup_fmap_2; [| exact Hnd].
  intros x y [= ->]. reflexivity.
Qed.

(** With an engine that makes an invalid date of every displayed time, the
    comparator always yields [NaN] and the feed is the delivery, unsorted. *)
Lemma feed_unsorted_when_dates_invalid (docs : list App.Doc) (s : App.State) :
  App.incidents (App.onSnapshotNext invalidDate docs s) = App.fetchedIncident <$> docs.
Proof.
  cbn. apply Array_sort_unchanged. intros x y.
  unfold sortsAfter, App.byTimestampDesc, App.newDate, invalidDate.
  by destruct (y !! "timestamp") as [[] |], (x !! "timestamp") as [[] |].
Qed.

(** C1 (the code at a failing input): two documents persisted on
    2025-11-01 10:00:00 and 2025-11-02 10:00:00 UTC, delivered older first,
    stay in that order in the feed, whatever [Date] makes of the displayed
    time: both show "10:00:00 AM", so the comparator never asks for a swap.
    And where [Date] rejects the displayed times, no delivery is sorted at
    all. *)
Theorem C1_feed_keeps_older_record_first (s : App.State) :
  App.doc_data docOlder !! "timestamp" = Some (VTimestamp 1761991200000) /\
  App.doc_data docNewer !! "timestamp" = Some (VTimestamp 1762077600000) /\
  App.incidents (App.onSnapshotNext dateParse [docOlder; docNewer] s) =
    [App.fetchedIncident docOlder; App.fetchedIncident docNewer] /\
  App.fetchedIncident docOlder !! "id" = Some (VStr "a") /\
  App.fetchedIncident docNewer !! "id" = Some (VStr "b") /\
  (forall docs,
     App.incidents (App.onSnapshotNext invalidDate docs s) = App.fetchedIncident <$> docs).
Proof.
  split; [vm_compute; reflexivity |]. split; [vm_compute; reflexivity |].
  split; [| split; [vm_compute; reflexivity |];
            split; [vm_compute; reflexivity |];
            intros docs; apply feed_unsorted_when_dates_invalid].
  cbn [App.onSnapshotNext App.setIncidents App.incidents map].
  unfold Array_sort. cbn [foldr sortInsert].
  rewrite (same_time_string_no_swap _ _ "10:00:00 AM"); [reflexivity | |].
  - rewrite fetchedIncident_timestamp. vm_compute. reflexivity.
  - rewrite fetchedIncident_timestamp. vm_compute. reflexivity.
Qed.

End Feed.

(** * Further properties of the code *)

(** ** checkCompliance: flag, list and displayed percentage *)

(** X1: The flag and the list agree: [isOverallCompliant] is true exactly when
    no incident is returned, and that is exactly when both readings are
    within their limits. *)
Theorem compliant_flag_iff_no_incident (data : GovernanceData) :
  (isOverallCompliant (checkCompliance data) = true <->
   incidents (checkCompliance data) = []) /\
  (isOverallCompliant (checkCompliance data) = true <->
   (wasteVolume data <= 0.8)%Q /\ (trafficDensity data <= 0.75)%Q).
Proof.
  rewrite <- (gt_false (wasteVolume data)), <- (gt_false (trafficDensity data)).
  unfold checkCompliance.
  change (maxVolume WASTE_COMPLIANCE) with 0.8%Q.
  change (maxDensity TRAFFIC_COMPLIANCE) with 0.75%Q.
  destruct (gt (wasteVolume data) 0.8), (gt (trafficDensity data) 0.75); cbn;
    (split; split; intros H; try done; try (by destruct H)).
Qed.

(** ** The scan loop: what an event can change *)

Section ScanLoopFurther.

Variable dateParse : string -> option Z.

Abbreviation step := (App.step dateParse).
Abbreviation run := (App.run dateParse).

(** Scans, [addDoc] log and scan counter move in one of three ways: not at
    all, by a timer that starts a scan, or by a settled append. *)
Lemma step_effect (s : App.State) (e : App.Event) :
  (App.pendingScans (step s e) = App.pendingScans s /\
   App.addDocCalls (step s e) = App.addDocCalls s /\
   App.scanCount (step s e) = App.scanCount s /\
   (forall id ok, e = App.AddDocSettled id ok ->
      forall sc, sc ∈ App.pendingScans s -> App.scanId sc ≠ id))
  \/
  (exists r1 r2 now d rest,
     e = App.TimerFired r1 r2 now /\
     incidents (checkCompliance (App.nextData (App.governanceData s) r1 r2 now))
       = d :: rest /\
     App.pendingScans (step s e) =
       App.pendingScans s ++
         [{| App.scanId := App.scanCount s;
             App.awaited := delete "timestamp" d;
             App.remaining := rest |}] /\
     App.addDocCalls (step s e) =
       App.addDocCalls s ++ [(App.scanCount s, delete "timestamp" d)] /\
     App.scanCount (step s e) = S (App.scanCount s))
  \/
  (exists id ok sc,
     e = App.AddDocSettled id ok /\ sc ∈ App.pendingScans s /\ App.scanId sc = id /\
     App.scanCount (step s e) = App.scanCount s /\
     ((App.pendingScans (step s e) =
         filter (fun x => App.scanId x ≠ id) (App.pendingScans s) /\
       App.addDocCalls (step s e) = App.addDocCalls s)
      \/
      (exists d rest,
         ok = true /\ App.remaining sc = d :: rest /\
         App.pendingScans (step s e) =
           filter (fun x => App.scanId x ≠ id) (App.pendingScans s) ++
             [{| App.scanId := id;
                 App.awaited := delete "timestamp" d;
                 App.remaining := rest |}] /\
         App.addDocCalls (step s e) =
           App.addDocCalls s ++ [(id, delete "timestamp" d)]))).
Proof.
  destruct e as [| ready ref | r1 r2 now | id ok | docs |]; cbn.
  - left. unfold App.storeEffect. destruct (negb _ || negb _); cbn; done.
  - left. case_bool_decide; [done |].
    unfold App.storeEffect. destruct (negb _ || negb _); cbn; done.
  - destruct (_ && _); [| left; done].
    unfold App.runDigitalScan. destruct (negb _ || negb _); [left; done |].
    destruct (checkCompliance _) as [c [| d rest]] eqn:Hc; cbn; [left; done |].
    right. left. exists r1, r2, now, d, rest. rewrite Hc. cbn. done.
  - destruct (find _ _) as [sc |] eqn:Hfind.
    + right. right. apply find_isScan_Some in Hfind as [Hin Hid].
      exists id, ok, sc. split; [done |]. split; [done |]. split; [done |].
      unfold App.resumeScan. destruct ok; cbn.
      * destruct (App.remaining sc) as [| d rest] eqn:Hrem; cbn.
        -- split; [done |]. left. done.
        -- split; [done |]. right. exists d, rest. rewrite Hid. done.
      * split; [done |]. left. done.
    + left. repeat split. intros id' ok' [= -> ->] sc Hsc Hid.
      assert (Hno : App.isScan id' sc = false).
      { apply (find_none _ _ Hfind sc). by apply list_elem_of_In. }
      unfold App.isScan in Hno. apply Nat.eqb_neq in Hno. done.
  - left. destruct (App.listening s); cbn; done.
  - left. destruct (App.listening s); cbn; done.
Qed.

Lemma callsBelowCount_step (s : App.State) (e : App.Event) :
  pendingBelowCount s -> callsBelowCount s -> callsBelowCount (step s e).
Proof.
  intros Hp Hc c.
  destruct (step_effect s e) as
    [(_ & -> & -> & _) |
     [(r1 & r2 & now & d & rest & _ & _ & _ & -> & ->) |
      (id & ok & sc & _ & Hin & Hid & -> & [[_ ->] | (d & rest & _ & _ & _ & ->)])]].
  - apply Hc.
  - intros [Hin | Hin]%elem_of_app.
    + specialize (Hc c Hin). lia.
    + apply list_elem_of_singleton in Hin as ->. cbn. lia.
  - apply Hc.
  - intros [Hin' | Hin']%elem_of_app; [by apply Hc |].
    apply list_elem_of_singleton in Hin' as ->. cbn. rewrite <- Hid. by apply Hp.
Qed.

Lemma callsOf_snoc (id id' : nat) (o : Obj) (calls : list (nat * Obj)) (s s' : App.State) :
  App.addDocCalls s' = App.addDocCalls s ++ [(id', o)] ->
  callsOf id s' = callsOf id s ++ (if decide (id' = id) then [o] else []).
Proof.
  intros H. unfold callsOf. rewrite H, filter_app, fmap_app. f_equal.
  destruct (decide (id' = id)) as [-> | Hne].
  - by rewrite filter_cons_True.
  - by rewrite filter_cons_False.
Qed.

Lemma callsOf_same (id : nat) (s s' : App.State) :
  App.addDocCalls s' = App.addDocCalls s -> callsOf id s' = callsOf id s.
Proof. intros H. unfold callsOf. by rewrite H. Qed.

Lemma callsOf_fresh (id : nat) (s : App.State) :
  callsBelowCount s -> (App.scanCount s <= id)%nat -> callsOf id s = [].
Proof.
  intros Hc Hid. unfold callsOf.
  assert (filter (fun c : nat * Obj => c.1 = id) (App.addDocCalls s) = []) as ->; [| done].
  apply elem_of_nil_inv. intros c [Hc1 Hc2]%list_elem_of_filter.
  specialize (Hc c Hc2). lia.
Qed.

Lemma scanFollowsReading_step (id : nat) (s : App.State) (e : App.Event) :
  pendingBelowCount s -> callsBelowCount s ->
  scanFollowsReading id s -> scanFollowsReading id (step s e).
Proof.
  intros Hp Hc (data & Hpre & Hpend). unfold scanFollowsReading.
  destruct (step_effect s e) as
    [(Ep & Ec & _ & _) |
     [(r1 & r2 & now & d & rest & _ & Hinc & Ep & Ec & _) |
      (id' & ok & sc & _ & Hin & Hid & _ &
         [[Ep Ec] | (d & rest & _ & Hrem & Ep & Ec)])]].
  - exists data. rewrite (callsOf_same id s _ Ec), Ep. done.
  - rewrite (callsOf_snoc id _ _ (App.addDocCalls s) s _ Ec).
    destruct (decide (App.scanCount s = id)) as [<- | Hne].
    + exists (App.nextData (App.governanceData s) r1 r2 now).
      rewrite (callsOf_fresh (App.scanCount s) s Hc) by lia.
      unfold recordsOf. rewrite Hinc. cbn. split.
      * by exists (delete "timestamp" <$> rest).
      * rewrite Ep. intros sc' [Hsc | Hsc]%elem_of_app Hid'.
        -- specialize (Hp sc' Hsc). lia.
        -- apply list_elem_of_singleton in Hsc as ->. done.
    + exists data. rewrite app_nil_r. split; [done |].
      rewrite Ep. intros sc' [Hsc | Hsc]%elem_of_app Hid'; [by apply Hpend |].
      apply list_elem_of_singleton in Hsc as ->. cbn in Hid'. done.
  - exists data. rewrite (callsOf_same id s _ Ec), Ep. split; [done |].
    intros sc' [_ Hsc]%list_elem_of_filter Hid'. by apply Hpend.
  - rewrite (callsOf_snoc id _ _ (App.addDocCalls s) s _ Ec).
    destruct (decide (id' = id)) as [-> | Hne].
    + exists data. specialize (Hpend sc Hin Hid). rewrite Hrem in Hpend. cbn in Hpend.
      split.
      * exists (delete "timestamp" <$> rest). rewrite <- Hpend, <- app_assoc. done.
      * rewrite Ep. intros sc' [[Hne _]%list_elem_of_filter | Hsc]%elem_of_app Hid';
          [done |].
        apply list_elem_of_singleton in Hsc as ->. cbn.
        rewrite <- Hpend, <- app_assoc. done.
    + exists data. rewrite app_nil_r. split; [done |].
      rewrite Ep. intros sc' [[_ Hsc]%list_elem_of_filter | Hsc]%elem_of_app Hid';
        [by apply Hpend |].
      apply list_elem_of_singleton in Hsc as ->. cbn in Hid'. done.
Qed.

(** X7: Whatever the order of timers and settled appends, the records one scan
    hands to [addDoc] are the first ones of the records of a single
    reading: never more than two, the waste record before the traffic
    record. *)
Theorem scan_appends_follow_one_reading (now : Z) (tr : list App.Event) (id : nat) :
  exists data,
    callsOf id (run (App.init now) tr) `prefix_of` recordsOf data /\
    (length (callsOf id (run (App.init now) tr)) <= 2)%nat.
Proof.
  assert (Inv : pendingBelowCount (run (App.init now) tr) /\
                callsBelowCount (run (App.init now) tr) /\
                scanFollowsReading id (run (App.init now) tr)).
  { apply (reachable_ind dateParse
             (fun s => pendingBelowCount s /\ callsBelowCount s /\ scanFollowsReading id s)).
    - split; [| split].
      + intros sc Hsc. by apply elem_of_nil in Hsc.
      + intros c Hc. by apply elem_of_nil in Hc.
      + exists (App.governanceData (App.init now)). split.
        * apply prefix_nil.
        * intros sc Hsc. by apply elem_of_nil in Hsc.
    - intros s e (Hp & Hc & Hf). split; [| split].
      + by apply pendingBelowCount_step.
      + by apply callsBelowCount_step.
      + by apply scanFollowsReading_step. }
  destruct Inv as (_ & _ & data & Hpre & _).
  exists data. split; [exact Hpre |].
  apply prefix_length in Hpre. etrans; [exact Hpre |].
  unfold recordsOf. rewrite length_fmap, checkCompliance_incidents, length_app.
  destruct (gt _ _), (gt _ _); cbn; lia.
Qed.

End ScanLoopFurther.

(** ** The scan loop: guards, status and what is never touched *)

Section Guards.

Variable dateParse : string -> option Z.

Abbreviation step := (App.step dateParse).
Abbreviation run := (App.run dateParse).

(** X6: A firing timer leaves the whole state as it is when the loop is not
    enabled, the identity is not ready, or there is no collection. *)
Theorem timer_without_collection_changes_nothing
    (s : App.State) (random1 random2 : Q) (now : Z) :
  App.isSimulationRunning s = false \/ App.isAuthReady s = false \/
  App.incidentCollectionRef s = None ->
  step s (App.TimerFired random1 random2 now) = s.
Proof.
  intros [H | [H | H]]; cbn; unfold App.runDigitalScan; rewrite H; cbn.
  - reflexivity.
  - by rewrite andb_false_r.
  - destruct (_ && _); [| reflexivity]. by rewrite orb_true_r.
Qed.

Lemma statusMatchesReading_step (s : App.State) (e : App.Event) :
  statusMatchesReading s -> statusMatchesReading (step s e).
Proof.
  intros Inv. destruct e as [| ready ref | r1 r2 now | id ok | docs |].
  - cbn. unfold App.storeEffect. destruct (negb _ || negb _); cbn; by split.
  - cbn. case_bool_decide; [exact Inv |].
    unfold App.storeEffect. destruct (negb _ || negb _); cbn; by split.
  - cbn. destruct (_ && _); [| exact Inv].
    unfold App.runDigitalScan. destruct (negb _ || negb _); [exact Inv |].
    remember (App.nextData (App.governanceData s) r1 r2 now) as nd eqn:End.
    pose proof (checkCompliance_incidents nd) as Hinc.
    change (maxVolume WASTE_COMPLIANCE) with 0.8%Q in Hinc.
    change (maxDensity TRAFFIC_COMPLIANCE) with 0.75%Q in Hinc.
    destruct (checkCompliance nd) as [c l]. cbn in Hinc. subst l.
    unfold statusMatchesReading.
    destruct (gt (wasteVolume nd) 0.8) eqn:Ew, (gt (trafficDensity nd) 0.75) eqn:Et;
      cbn; rewrite ?Ew, ?Et; (split; intros H; try discriminate H; auto).
  - destruct (settle_fields dateParse id ok s) as (_ & _ & _ & _ & _ & Hs & Hg & _).
    cbn in Hs, Hg. unfold statusMatchesReading. cbn. rewrite Hs, Hg. exact Inv.
  - cbn. destruct (App.listening s); exact Inv.
  - cbn. destruct (App.listening s); [| exact Inv]. cbn. by split.
Qed.

Lemma statusMatchesReading_reachable (now : Z) (tr : list App.Event) :
  statusMatchesReading (run (App.init now) tr).
Proof.
  apply reachable_ind; [| apply statusMatchesReading_step]. by split.
Qed.

(** X8: In every reachable state the status and the two cards agree: under
    "Komplian Penuh" neither card is drawn as critical, under
    "Insiden Terdeteksi" at least one is. *)
Theorem status_agrees_with_cards (now : Z) (tr : list App.Event) :
  let s := run (App.init now) tr in
  (App.systemStatus s = "Komplian Penuh" ->
   View.valueColor (View.wasteCard s) = "text-teal-400" /\
   View.valueColor (View.trafficCard s) = "text-teal-400") /\
  (App.systemStatus s = "Insiden Terdeteksi" ->
   View.valueColor (View.wasteCard s) = "text-red-400" \/
   View.valueColor (View.trafficCard s) = "text-red-400").
Proof.
  intros s. destruct (statusMatchesReading_reachable now tr) as [Hok Hbad].
  fold s in Hok, Hbad. cbn. split.
  - intros H. destruct (Hok H) as [-> ->]. done.
  - intros H. destruct (Hbad H) as [-> | ->]; auto.
Qed.

(** X9: The banner is green only over an empty incident list and a reading
    within both limits. *)
Theorem green_banner_means_within_limits (now : Z) (tr : list App.Event) :
  let s := run (App.init now) tr in
  View.color (View.StatusDisplay s) = "bg-green-600" ->
  App.incidents s = [] /\
  (wasteVolume (App.governanceData s) <= 0.8)%Q /\
  (trafficDensity (App.governanceData s) <= 0.75)%Q.
Proof.
  intros s. destruct (statusMatchesReading_reachable now tr) as [Hok _].
  fold s in Hok. cbn.
  destruct (App.incidents s) as [| o l]; cbn; [| discriminate].
  destruct (String.eqb_spec (App.systemStatus s) "Komplian Penuh") as [E | E];
    [| discriminate].
  intros _. destruct (Hok E) as [Hw Ht].
  split; [done |]. split; by apply gt_false.
Qed.

Lemma no_delivery_keeps_incidents (s : App.State) (e : App.Event) :
  isDelivery e = false -> App.incidents (step s e) = App.incidents s.
Proof.
  intros He. destruct e as [| ready ref | r1 r2 now | id ok | docs |]; try discriminate He.
  - cbn. unfold App.storeEffect. destruct (negb _ || negb _); done.
  - cbn. case_bool_decide; [done |].
    unfold App.storeEffect. destruct (negb _ || negb _); done.
  - cbn. destruct (_ && _); [| done].
    by destruct (runDigitalScan_hook_fields r1 r2 now s) as (_ & _ & _ & _ & -> & _).
  - by destruct (settle_fields dateParse id ok s) as (_ & _ & _ & _ & -> & _).
  - cbn. destruct (App.listening s); done.
Qed.

(** X11: Scans, settled appends, hook updates and listener errors never touch
    the displayed incident list: an incident found by a scan is shown only
    once a snapshot delivers it. *)
Theorem incidents_change_only_by_delivery (s : App.State) (tr : list App.Event) :
  Forall (fun e => isDelivery e = false) tr ->
  App.incidents (run s tr) = App.incidents s.
Proof.
  revert s. induction tr as [| e tr IH]; intros s Htr; [done |].
  apply Forall_cons in Htr as [He Htr]. cbn.
  unfold App.run in IH. rewrite (IH _ Htr). by apply no_delivery_keeps_incidents.
Qed.

Lemma running_step (s : App.State) (e : App.Event) :
  App.isSimulationRunning s = true -> App.isSimulationRunning (step s e) = true.
Proof.
  intros Hr. destruct e as [| ready ref | r1 r2 now | id ok | docs |].
  - cbn. unfold App.storeEffect. destruct (negb _ || negb _); done.
  - cbn. case_bool_decide; [done |].
    unfold App.storeEffect. destruct (negb _ || negb _); done.
  - cbn. destruct (_ && _); [| done].
    by destruct (runDigitalScan_hook_fields r1 r2 now s) as (_ & -> & _).
  - by destruct (settle_fields dateParse id ok s) as (_ & -> & _).
  - cbn. destruct (App.listening s); done.
  - cbn. destruct (App.listening s); done.
Qed.

(** X12: Nothing switches the simulation off: once [isSimulationRunning] is
    true it is true in every later state, also after the identity or the
    collection is lost and after a listener error. *)
Theorem simulation_never_switched_off (s : App.State) (tr : list App.Event) :
  App.isSimulationRunning s = true ->
  App.isSimulationRunning (run s tr) = true.
Proof.
  revert s. induction tr as [| e tr IH]; intros s Hr; [done |].
  cbn. unfold App.run in IH. apply IH. by apply running_step.
Qed.

End Guards.

Lemma timer_without_collection_changes_nothing_witness :
  App.step invalidDate (App.init 0) (App.TimerFired 0.99 0.99 4000) = App.init 0.
Proof.
  apply (timer_without_collection_changes_nothing invalidDate (App.init 0)).
  left. reflexivity.
Defined.

Lemma status_agrees_with_cards_witness :
  View.valueColor (View.wasteCard firstBreach) = "text-red-400" \/
  View.valueColor (View.trafficCard firstBreach) = "text-red-400".
Proof.
  unfold firstBreach.
  apply (proj2 (status_agrees_with_cards invalidDate 0 breachTrace)).
  vm_compute. reflexivity.
Defined.

Lemma green_banner_means_within_limits_witness :
  App.incidents calmScan = [] /\
  (wasteVolume (App.governanceData calmScan) <= 0.8)%Q /\
  (trafficDensity (App.governanceData calmScan) <= 0.75)%Q.
Proof.
  unfold calmScan.
  apply (green_banner_means_within_limits invalidDate 0
           [App.Mounted; App.HookUpdate true (Some "incidents");
            App.TimerFired 0.5 0.5 4000]).
  vm_compute. reflexivity.
Defined.

Lemma incidents_change_only_by_delivery_witness :
  App.incidents
    (App.run invalidDate firstBreach
       [App.AddDocSettled 0 true; App.TimerFired 0.5 0.5 16000; App.SnapshotError])
  = App.incidents firstBreach.
Proof.
  apply (incidents_change_only_by_delivery invalidDate firstBreach).
  repeat constructor.
Defined.

Lemma simulation_never_switched_off_witness :
  App.isSimulationRunning
    (App.run invalidDate monitoring [App.SnapshotError; App.HookUpdate false None])
  = true.
Proof.
  apply (simulation_never_switched_off invalidDate monitoring).
  vm_compute. reflexivity.
Defined.

(** ** The simulator: the first scans *)

Section Drift.

Variable dateParse : string -> option Z.

Abbreviation step := (App.step dateParse).
Abbreviation run := (App.run dateParse).

Lemma timersIn_snoc (tr : list App.Event) (e : App.Event) :
  timersIn (tr ++ [e]) = (timersIn tr + (if isTimer e then 1 else 0))%nat.
Proof.
  unfold timersIn. rewrite List.filter_app, length_app. cbn.
  by destruct (isTimer e).
Qed.

Lemma governanceData_step (s : App.State) (e : App.Event) :
  App.governanceData (step s e) = App.governanceData s \/
  exists r1 r2 now,
    e = App.TimerFired r1 r2 now /\
    App.governanceData (step s e) = App.nextData (App.governanceData s) r1 r2 now.
Proof.
  destruct e as [| ready ref | r1 r2 now | id ok | docs |].
  - left. cbn. unfold App.storeEffect. destruct (negb _ || negb _); done.
  - left. cbn. case_bool_decide; [done |].
    unfold App.storeEffect. destruct (negb _ || negb _); done.
  - cbn. destruct (_ && _); [| by left].
    unfold App.runDigitalScan. destruct (negb _ || negb _); [by left |].
    right. exists r1, r2, now. split; [done |].
    destruct (checkCompliance _) as [c [| d rest]]; cbn; done.
  - left. by destruct (settle_fields dateParse id ok s) as (_ & _ & _ & _ & _ & _ & -> & _).
  - left. cbn. destruct (App.listening s); done.
  - left. cbn. destruct (App.listening s); done.
Qed.

Lemma nextData_upper (data : GovernanceData) (r1 r2 : Q) (now : Z) :
  (r1 < 1)%Q -> (r2 < 1)%Q ->
  (wasteVolume (App.nextData data r1 r2 now) < wasteVolume data + 0.12)%Q /\
  (trafficDensity (App.nextData data r1 r2 now) < trafficDensity data + 0.15)%Q.
Proof.
  intros H1 H2. cbn. unfold Math_min.
  destruct (Qle_bool 1.0 (wasteVolume data + _)) eqn:Ew;
    destruct (Qle_bool 1.0 (trafficDensity data + _)) eqn:Et;
    try apply Qle_bool_iff in Ew; try apply Qle_bool_iff in Et; split; lra.
Qed.

(** After [n] firings of the timer the reading is at most
    0.5 + 0.12 n and 0.4 + 0.15 n. *)
Lemma reading_drift (now : Z) (tr : list App.Event) :
  Forall randomsInRange tr ->
  (wasteVolume (App.governanceData (run (App.init now) tr))
     <= 0.5 + 0.12 * inject_Z (Z.of_nat (timersIn tr)))%Q /\
  (trafficDensity (App.governanceData (run (App.init now) tr))
     <= 0.4 + 0.15 * inject_Z (Z.of_nat (timersIn tr)))%Q.
Proof.
  induction tr as [| e tr IH] using rev_ind; intros Htr.
  { split; vm_compute; discriminate. }
  apply Forall_app in Htr as [Htr He]. rewrite Forall_singleton in He.
  destruct (IH Htr) as [IHw IHt]. clear IH.
  rewrite run_snoc, timersIn_snoc.
  assert (Hn : (0 <= inject_Z (Z.of_nat (timersIn tr)))%Q).
  { change 0%Q with (inject_Z 0). rewrite <- Zle_Qle. lia. }
  destruct (governanceData_step (run (App.init now) tr) e)
    as [-> | (r1 & r2 & now' & -> & ->)].
  - assert (Hm : (inject_Z (Z.of_nat (timersIn tr))
                  <= inject_Z (Z.of_nat (timersIn tr + (if isTimer e then 1 else 0))))%Q).
    { rewrite <- Zle_Qle. lia. }
    split; lra.
  - cbn [isTimer]. rewrite Nat2Z.inj_add, inject_Z_plus.
    change (inject_Z (Z.of_nat 1)) with 1%Q.
    cbn in He. destruct He as (_ & H1 & _ & H2).
    destruct (nextData_upper (App.governanceData (run (App.init now) tr)) r1 r2 now' H1 H2)
      as [Hw Ht].
    split; lra.
Qed.

(** X5: From the initial reading 0.5 / 0.4, with [Math.random()] in [0, 1), the
    first two firings of the timer cannot break a limit: up to there no
    record is handed to [addDoc] and the status is never
    "Insiden Terdeteksi". *)
Theorem first_two_scans_find_nothing (now : Z) (tr : list App.Event) :
  Forall randomsInRange tr ->
  (timersIn tr <= 2)%nat ->
  App.addDocCalls (run (App.init now) tr) = [] /\
  App.systemStatus (run (App.init now) tr) <> "Insiden Terdeteksi".
Proof.
  intros Htr Hn.
  cut (App.addDocCalls (run (App.init now) tr) = [] /\
       App.pendingScans (run (App.init now) tr) = [] /\
       App.systemStatus (run (App.init now) tr) <> "Insiden Terdeteksi").
  { intros (H1 & _ & H3). by split. }
  induction tr as [| e tr IH] using rev_ind.
  { cbn. repeat split. discriminate. }
  apply Forall_app in Htr as [Htr He]. rewrite Forall_singleton in He.
  rewrite timersIn_snoc in Hn.
  destruct IH as (Hc & Hp & Hs); [exact Htr | lia |].
  pose proof (reading_drift now tr Htr) as [Hw Ht].
  rewrite run_snoc. set (s := run (App.init now) tr) in *.
  destruct e as [| ready ref | r1 r2 now' | id ok | docs |].
  - cbn. unfold App.storeEffect. destruct (negb _ || negb _); cbn; by repeat split.
  - cbn. case_bool_decide; [done |].
    unfold App.storeEffect. destruct (negb _ || negb _); cbn; by repeat split.
  - cbn. destruct (_ && _); [| done].
    unfold App.runDigitalScan. destruct (negb _ || negb _); [done |].
    cbn [isTimer] in Hn.
    assert (Hm : (inject_Z (Z.of_nat (timersIn tr)) <= 1)%Q).
    { change 1%Q with (inject_Z 1). rewrite <- Zle_Qle. lia. }
    cbn in He. destruct He as (_ & H1 & _ & H2).
    destruct (nextData_upper (App.governanceData s) r1 r2 now' H1 H2) as [Hw' Ht'].
    remember (App.nextData (App.governanceData s) r1 r2 now') as nd eqn:End.
    pose proof (checkCompliance_incidents nd) as Hinc.
    assert (gt (wasteVolume nd) (maxVolume WASTE_COMPLIANCE) = false) as Ew.
    { apply gt_false. change (maxVolume WASTE_COMPLIANCE) with 0.8%Q. lra. }
    assert (gt (trafficDensity nd) (maxDensity TRAFFIC_COMPLIANCE) = false) as Et.
    { apply gt_false. change (maxDensity TRAFFIC_COMPLIANCE) with 0.75%Q. lra. }
    rewrite Ew, Et in Hinc.
    destruct (checkCompliance nd) as [c l]. cbn in Hinc. subst l. cbn.
    by repeat split.
  - cbn. fold s. rewrite Hp. cbn. done.
  - cbn. destruct (App.listening s); cbn; by repeat split.
  - cbn. destruct (App.listening s); cbn; by repeat split.
Qed.

End Drift.

Lemma first_two_scans_find_nothing_witness :
  App.addDocCalls
    (App.run invalidDate (App.init 0)
       [App.Mounted; App.HookUpdate true (Some "incidents");
        App.TimerFired 0.99 0.99 4000; App.TimerFired 0.99 0.99 8000]) = [].
Proof.
  refine (proj1 (first_two_scans_find_nothing invalidDate 0
                   [App.Mounted; App.HookUpdate true (Some "incidents");
                    App.TimerFired 0.99 0.99 4000; App.TimerFired 0.99 0.99 8000] _ _)).
  - repeat constructor; vm_compute; first [reflexivity | discriminate].
  - vm_compute. lia.
Defined.

(** ** The incident feed: what a delivery becomes *)

Section FeedFurther.

Variable dateParse : string -> option Z.

(** X13: The feed built from a delivery is a rearrangement of the delivered
    documents: none is dropped, none doubled, whatever the timestamps are
    and whatever the list held before. *)
Theorem feed_is_rearranged_delivery (docs : list App.Doc) (s : App.State) :
  App.incidents (App.onSnapshotNext dateParse docs s) ≡ₚ App.fetchedIncident <$> docs /\
  length (App.incidents (App.onSnapshotNext dateParse docs s)) = length docs.
Proof.
  assert (H : App.incidents (App.onSnapshotNext dateParse docs s)
              ≡ₚ App.fetchedIncident <$> docs) by apply Array_sort_Permutation.
  split; [exact H |]. rewrite H. apply length_fmap.
Qed.

(** X15: Field by field, what the listener makes of a document: the displayed
    time replaces the stored timestamp and is "N/A" unless that is a
    resolved [Timestamp]; a stored [id] field takes the place of the
    document id; every other stored field is passed on. *)
Theorem fetchedIncident_fields (doc : App.Doc) (k : string) :
  App.fetchedIncident doc !! k =
    if decide (k = "timestamp") then
      Some (VStr (match App.doc_data doc !! "timestamp" with
                  | Some (VTimestamp millis) => toLocaleTimeString millis
                  | _ => "N/A"
                  end))
    else if decide (k = "id") then
      Some (default (VStr (App.doc_id doc)) (App.doc_data doc !! "id"))
    else App.doc_data doc !! k.
Proof.
  unfold App.fetchedIncident.
  destruct (decide (k = "timestamp")) as [-> | Hts].
  { by rewrite lookup_insert_eq. }
  rewrite lookup_insert_ne by done.
  rewrite lookup_union.
  destruct (decide (k = "id")) as [-> | Hid].
  - rewrite lookup_singleton_eq. by destruct (App.doc_data doc !! "id").
  - rewrite lookup_singleton_ne by done. by destruct (App.doc_data doc !! k).
Qed.

(** X17: A record the scan loop has handed to [addDoc], read back as a document,
    is shown with the time "N/A": it has the document id, its four fields,
    and no stored timestamp to display. *)
Theorem saved_record_is_shown_without_time
    (now : Z) (tr : list App.Event) (c : nat * Obj) (docId : string) :
  c ∈ App.addDocCalls (App.run dateParse (App.init now) tr) ->
  let shown := App.fetchedIncident {| App.doc_id := docId; App.doc_data := c.2 |} in
  shown !! "timestamp" = Some (VStr "N/A") /\
  shown !! "id" = Some (VStr docId) /\
  shown !! "type" = c.2 !! "type" /\
  shown !! "area" = c.2 !! "area" /\
  shown !! "description" = c.2 !! "description" /\
  shown !! "status" = c.2 !! "status" /\
  dom shown = savedFields ∪ {[ "id"; "timestamp" ]}.
Proof.
  intros Hc shown.
  assert (Inv : onlySavedFields (App.run dateParse (App.init now) tr)).
  { apply reachable_ind; [by split | apply onlySavedFields_step]. }
  destruct Inv as [Hall _]. rewrite Forall_forall in Hall.
  specialize (Hall c Hc). cbn in Hall.
  assert (Hnone : forall k, k ∉ savedFields -> c.2 !! k = None).
  { intros k Hk. apply not_elem_of_dom. by rewrite Hall. }
  assert (Hts : c.2 !! "timestamp" = None).
  { apply Hnone. unfold savedFields. rewrite !elem_of_union, !elem_of_singleton.
    intros [[[H | H] | H] | H]; discriminate H. }
  assert (Hid : c.2 !! "id" = None).
  { apply Hnone. unfold savedFields. rewrite !elem_of_union, !elem_of_singleton.
    intros [[[H | H] | H] | H]; discriminate H. }
  subst shown. rewrite !fetchedIncident_timestamp. cbn [App.doc_data App.doc_id].
  rewrite Hts. split; [done |].
  split; [by rewrite fetchedIncident_id |].
  unfold App.fetchedIncident. cbn [App.doc_data App.doc_id]. rewrite Hts.
  repeat (split; [rewrite lookup_insert_ne by done;
                  rewrite lookup_union_l by (by rewrite lookup_singleton_ne);
                  done |]).
  rewrite dom_insert_L, dom_union_L, dom_singleton_L, Hall.
  unfold savedFields. set_solver.
Qed.

End FeedFurther.

Lemma feed_ids_NoDup_witness :
  NoDup ((fun o => o !! "id") <$>
           App.incidents (App.onSnapshotNext invalidDate [docOlder; docNewer] (App.init 0))).
Proof.
  apply (feed_ids_NoDup invalidDate [docOlder; docNewer] (App.init 0)).
  - apply (bool_decide_unpack _). vm_compute. exact I.
  - repeat constructor.
Defined.

Lemma saved_record_is_shown_without_time_witness :
  App.fetchedIncident
    {| App.doc_id := "x1";
       App.doc_data := delete "timestamp" (wasteIncident (App.governanceData firstBreach)) |}
    !! "timestamp" = Some (VStr "N/A").
Proof.
  refine (proj1 (saved_record_is_shown_without_time invalidDate 0 breachTrace
                   (0%nat, delete "timestamp" (wasteIncident (App.governanceData firstBreach)))
                   "x1" _)).
  vm_compute. apply list_elem_of_here.
Defined.

(** ** The status banner *)

(** X10: The banner has three looks and the icon always goes with the colour:
    red with the cross whenever the incident list is not empty, whatever the
    status says; green with the shield for an empty list under
    "Komplian Penuh"; blue with the flash otherwise, "DB Error" included. *)
Theorem banner_colour_and_icon (s : App.State) :
  (View.color (View.StatusDisplay s) = "bg-red-600" /\
   View.icon (View.StatusDisplay s) = View.XCircle /\
   App.incidents s <> [])
  \/
  (View.color (View.StatusDisplay s) = "bg-green-600" /\
   View.icon (View.StatusDisplay s) = View.ShieldCheck /\
   App.incidents s = [] /\ App.systemStatus s = "Komplian Penuh")
  \/
  (View.color (View.StatusDisplay s) = "bg-blue-600" /\
   View.icon (View.StatusDisplay s) = View.Zap /\
   App.incidents s = [] /\ App.systemStatus s <> "Komplian Penuh").
Proof.
  unfold View.StatusDisplay. cbn.
  destruct (App.incidents s) as [| o l]; cbn.
  - right.
    destruct (String.eqb_spec (App.systemStatus s) "Komplian Penuh") as [E | E];
      [left | right]; done.
  - left. done.
Qed.

(** ** The useFirebase hook *)

Lemma string_length_app (a b : string) :
  String.length (a +:+ b) = (String.length a + String.length b)%nat.
Proof.
  induction a as [| c a IH]; [done |].
  change (String c a +:+ b) with (String c (a +:+ b)). cbn. by f_equal.
Qed.

Lemma string_app_inj_r (a b t : string) : a +:+ t = b +:+ t -> a = b.
Proof.
  revert b. induction a as [| c a IH]; intros [| c' b] H.
  - done.
  - apply (f_equal String.length) in H.
    change ("" +:+ t) with t in H.
    rewrite string_length_app in H. cbn in H. lia.
  - apply (f_equal String.length) in H.
    change ("" +:+ t) with t in H.
    rewrite string_length_app in H. cbn in H. lia.
  - change (String c (a +:+ t) = String c' (b +:+ t)) in H.
    injection H as -> H. f_equal. by apply IH.
Qed.

Lemma hook_run_snoc (g : Hook.Globals) (h : Hook.State) (tr : list Hook.Event)
    (e : Hook.Event) :
  Hook.run g h (tr ++ [e]) = Hook.step g (Hook.run g h tr) e.
Proof. unfold Hook.run. by rewrite foldl_app. Qed.

Lemma untouched_step (g : Hook.Globals) (h : Hook.State) (e : Hook.Event) :
  default ∅ (Hook.firebase_config g) = ∅ -> untouched h -> untouched (Hook.step g h e).
Proof.
  intros Hcfg (Hdb & Hauth & Hu & Hr & Hl). destruct e as [| user custom anonymous]; cbn.
  - unfold Hook.mountEffect. rewrite Hcfg. cbn. done.
  - rewrite Hl. done.
Qed.

(** X18: Without a configuration (none given, or an empty object) the hook logs
    the fact at mount and initialises nothing: through any sequence of
    events it has no database, no user, is never ready, and what it hands to
    the component never changes. *)
Theorem hook_without_config_stays_untouched (g : Hook.Globals) (tr : list Hook.Event) :
  default ∅ (Hook.firebase_config g) = ∅ ->
  untouched (Hook.run g Hook.init tr) /\
  Hook.incidentCollectionRef g (Hook.run g Hook.init tr) = None /\
  Hook.toApp g (Hook.run g Hook.init tr) = App.HookUpdate false None /\
  Hook.consoleErrors (Hook.step g Hook.init Hook.Mount) = ["Firebase config is missing."].
Proof.
  intros Hcfg.
  assert (Hun : untouched (Hook.run g Hook.init tr)).
  { induction tr as [| e tr IH] using rev_ind; [done |].
    rewrite hook_run_snoc. by apply untouched_step. }
  split; [exact Hun |].
  destruct Hun as (Hdb & _ & _ & Hr & _).
  unfold Hook.toApp, Hook.incidentCollectionRef. rewrite Hdb, Hr.
  repeat split. cbn. unfold Hook.mountEffect. by rewrite Hcfg.
Qed.

Lemma hook_without_config_stays_untouched_witness :
  Hook.toApp barePage
    (Hook.run barePage Hook.init
       [Hook.Mount; Hook.AuthStateChanged (Some "u1") Hook.Rejected Hook.Rejected])
  = App.HookUpdate false None.
Proof.
  refine (proj1 (proj2 (proj2 (hook_without_config_stays_untouched barePage
            [Hook.Mount; Hook.AuthStateChanged (Some "u1") Hook.Rejected Hook.Rejected] _)))).
  reflexivity.
Defined.

Lemma readyHasUser_step (g : Hook.Globals) (h : Hook.State) (e : Hook.Event) :
  readyHasUser h -> readyHasUser (Hook.step g h e).
Proof.
  intros Inv. pose proof Inv as [Hr Hl].
  destruct e as [| user custom anonymous]; cbn.
  - unfold Hook.mountEffect. destruct (size _ =? 0)%nat; cbn; [by split |].
    split; [| by split; eexists].
    intros H. destruct (Hr H) as [Hu _]. done.
  - destruct (Hook.authListener h) eqn:El; [| exact Inv].
    specialize (Hl eq_refl).
    unfold Hook.onAuthStateChanged.
    destruct user as [uid |];
      [| destruct (from_option Hook.truthy false (Hook.initial_auth_token g)),
                  custom as [cu |], anonymous as [au |] ];
      (split; cbn; rewrite ?El; [| done]);
      first [ exact Hr | intros _; split; [by eexists | done] ].
Qed.

Lemma readyHasUser_reachable (g : Hook.Globals) (tr : list Hook.Event) :
  readyHasUser (Hook.run g Hook.init tr).
Proof.
  induction tr as [| e tr IH] using rev_ind; [by split |].
  rewrite hook_run_snoc. by apply readyHasUser_step.
Qed.

(** X19: A hook that reports ready has a user and a database handle, and unless
    the user id is the empty string it has the collection at
    artifacts/<appId>/users/<userId>/bandung_governance_incidents. *)
Theorem ready_hook_has_collection (g : Hook.Globals) (tr : list Hook.Event) :
  Hook.isAuthReady (Hook.run g Hook.init tr) = true ->
  exists uid,
    Hook.userId (Hook.run g Hook.init tr) = Some uid /\
    is_Some (Hook.db (Hook.run g Hook.init tr)) /\
    (uid <> "" ->
     Hook.incidentCollectionRef g (Hook.run g Hook.init tr) =
       Some ("artifacts/" +:+ Hook.appId g +:+ "/users/" +:+ uid
             +:+ "/bandung_governance_incidents")) /\
    (uid = "" -> Hook.incidentCollectionRef g (Hook.run g Hook.init tr) = None).
Proof.
  intros Hready. destruct (readyHasUser_reachable g tr) as [Hr Hl].
  destruct (Hr Hready) as [[uid Hu] Hlist]. destruct (Hl Hlist) as [[d Hd] _].
  exists uid. split; [exact Hu |]. split; [by eexists |].
  unfold Hook.incidentCollectionRef, Hook.truthy. rewrite Hd, Hu.
  destruct (String.eqb_spec uid "") as [E | E]; cbn; split; done.
Qed.

Lemma ready_hook_has_collection_witness :
  exists uid,
    Hook.userId (Hook.run pageGlobals Hook.init fallbackTrace) = Some uid /\
    is_Some (Hook.db (Hook.run pageGlobals Hook.init fallbackTrace)) /\
    (uid <> "" ->
     Hook.incidentCollectionRef pageGlobals (Hook.run pageGlobals Hook.init fallbackTrace) =
       Some ("artifacts/" +:+ Hook.appId pageGlobals +:+ "/users/" +:+ uid
             +:+ "/bandung_governance_incidents")) /\
    (uid = "" ->
     Hook.incidentCollectionRef pageGlobals (Hook.run pageGlobals Hook.init fallbackTrace)
     = None).
Proof.
  apply (ready_hook_has_collection pageGlobals fallbackTrace).
  vm_compute. reflexivity.
Defined.

Example fallback_collection :
  Hook.incidentCollectionRef pageGlobals (Hook.run pageGlobals Hook.init fallbackTrace)
  = Some "artifacts/bandung/users/anon-7/bandung_governance_incidents" /\
  Hook.consoleErrors (Hook.run pageGlobals Hook.init fallbackTrace)
  = ["Custom token sign-in failed, falling back to anonymous:"].
Proof. vm_compute. done. Qed.

(** X20: One auth event either ends with a user id and the hook ready, or, when
    nobody is signed in and the anonymous sign-in is rejected, leaves user
    id and readiness as they were.  The failure of the token sign-in alone
    is logged and made up for by the anonymous sign-in. *)
Theorem auth_event_outcome (g : Hook.Globals) (h : Hook.State)
    (user : option string) (custom anonymous : Hook.SignIn) :
  Hook.authListener h = true ->
  let h' := Hook.step g h (Hook.AuthStateChanged user custom anonymous) in
  ((exists uid, Hook.userId h' = Some uid /\ Hook.isAuthReady h' = true) /\
   (user <> None \/ anonymous <> Hook.Rejected \/
    (from_option Hook.truthy false (Hook.initial_auth_token g) = true /\
     custom <> Hook.Rejected)))
  \/
  (Hook.userId h' = Hook.userId h /\ Hook.isAuthReady h' = Hook.isAuthReady h /\
   user = None /\ anonymous = Hook.Rejected).
Proof.
  intros Hl. cbn. rewrite Hl. unfold Hook.onAuthStateChanged.
  destruct user as [uid |]; cbn.
  { left. split; [by eexists | by left]. }
  destruct (from_option Hook.truthy false (Hook.initial_auth_token g)),
           custom as [cu |], anonymous as [au |]; cbn;
    first [ by right
          | left; split; [by eexists |]; first [by right; left | by right; right] ].
Qed.

Lemma auth_event_outcome_witness :
  (exists uid,
     Hook.userId (Hook.run pageGlobals Hook.init fallbackTrace) = Some uid /\
     Hook.isAuthReady (Hook.run pageGlobals Hook.init fallbackTrace) = true)
  \/ Hook.userId (Hook.run pageGlobals Hook.init fallbackTrace) = None.
Proof.
  destruct (auth_event_outcome pageGlobals
              (Hook.step pageGlobals Hook.init Hook.Mount)
              None Hook.Rejected (Hook.Credential "anon-7")) as [[H _] | (H & _)].
  - reflexivity.
  - left. exact H.
  - right. exact H.
Defined.

(** X21: Two hook states of one page with the same collection path belong to the
    same user: the path keeps the users' incidents apart. *)
Theorem collection_path_separates_users (g : Hook.Globals) (h1 h2 : Hook.State)
    (path : string) :
  Hook.incidentCollectionRef g h1 = Some path ->
  Hook.incidentCollectionRef g h2 = Some path ->
  Hook.userId h1 = Hook.userId h2.
Proof.
  unfold Hook.incidentCollectionRef. intros H1 H2.
  destruct (Hook.db h1), (Hook.userId h1) as [u1 |]; try discriminate H1.
  destruct (Hook.db h2), (Hook.userId h2) as [u2 |]; try discriminate H2.
  destruct (Hook.truthy u1); [| discriminate H1].
  destruct (Hook.truthy u2); [| discriminate H2].
  injection H1 as H1. injection H2 as H2. rewrite <- H2 in H1.
  do 3 apply (inj (String.app _)) in H1.
  apply string_app_inj_r in H1. by rewrite H1.
Qed.

Lemma collection_path_separates_users_witness :
  Hook.userId (Hook.run pageGlobals Hook.init fallbackTrace) =
  Hook.userId (Hook.run pageGlobals Hook.init
                 [Hook.Mount; Hook.AuthStateChanged (Some "anon-7") Hook.Rejected Hook.Rejected]).
Proof.
  apply (collection_path_separates_users pageGlobals _ _
           "artifacts/bandung/users/anon-7/bandung_governance_incidents");
    vm_compute; reflexivity.
Defined.

(** ** From the hook to the component *)

(** X22: When the hook reports ready with a user id that is not empty, the
    render that passes this on to a component not yet ready starts the
    monitoring: status "Memantau", listener attached, scan loop enabled, the
    collection the hook's one. *)
Theorem signed_in_hook_starts_monitoring
    (dateParse : string -> option Z) (g : Hook.Globals) (tr : list Hook.Event)
    (s : App.State) :
  let h := Hook.run g Hook.init tr in
  Hook.isAuthReady h = true ->
  Hook.userId h <> Some "" ->
  App.isAuthReady s = false ->
  let s' := App.step dateParse s (Hook.toApp g h) in
  App.systemStatus s' = "Memantau" /\
  App.listening s' = true /\
  App.isSimulationRunning s' = true /\
  App.isAuthReady s' = true /\
  App.incidentCollectionRef s' = Hook.incidentCollectionRef g h /\
  is_Some (App.incidentCollectionRef s').
Proof.
  intros h Hready Hne Hs s'.
  destruct (readyHasUser_reachable g tr) as [Hr Hl]. fold h in Hr, Hl.
  destruct (Hr Hready) as [[uid Hu] Hlist]. destruct (Hl Hlist) as [[d Hd] _].
  assert (Href : Hook.incidentCollectionRef g h =
                 Some ("artifacts/" +:+ Hook.appId g +:+ "/users/" +:+ uid
                       +:+ "/bandung_governance_incidents")).
  { unfold Hook.incidentCollectionRef, Hook.truthy. rewrite Hd, Hu.
    destruct (String.eqb_spec uid "") as [-> | E]; [by rewrite Hu in Hne | done]. }
  subst s'. unfold Hook.toApp. rewrite Hready, Href. cbn.
  rewrite bool_decide_eq_false_2 by (rewrite Hs; intros [[=] _]).
  cbn. repeat split. by eexists.
Qed.

Lemma signed_in_hook_starts_monitoring_witness :
  App.systemStatus
    (App.step invalidDate (App.step invalidDate (App.init 0) App.Mounted)
       (Hook.toApp pageGlobals (Hook.run pageGlobals Hook.init fallbackTrace)))
  = "Memantau".
Proof.
  refine (proj1 (signed_in_hook_starts_monitoring invalidDate pageGlobals fallbackTrace
                   (App.step invalidDate (App.init 0) App.Mounted) _ _ _)).
  - vm_compute. reflexivity.
  - vm_compute. discriminate.
  - vm_compute. reflexivity.
Defined.

Lemma compliant_flag_iff_no_incident_witness :
  incidents (checkCompliance reading_at_limits) = [].
Proof.
  apply (proj1 (proj1 (compliant_flag_iff_no_incident reading_at_limits))).
  reflexivity.
Defined.

(** ** A scan whose appends all succeed; a store of own records *)

Section Fulfilled.

Variable dateParse : string -> option Z.

Abbreviation step := (App.step dateParse).
Abbreviation run := (App.run dateParse).

Lemma settle_last_scan (s : App.State) (others : list App.Scan) (id : nat)
    (o : Obj) (rest : list Obj) :
  (forall sc, sc ∈ others -> App.scanId sc ≠ id) ->
  App.pendingScans s =
    others ++ [{| App.scanId := id; App.awaited := o; App.remaining := rest |}] ->
  step s (App.AddDocSettled id true) =
    App.appendLoop id rest (App.setPendingScans others s).
Proof.
  intros Hothers Hp. cbn. rewrite Hp.
  assert (Hfind : find (App.isScan id)
                    (others ++ [{| App.scanId := id; App.awaited := o;
                                   App.remaining := rest |}])
                  = Some {| App.scanId := id; App.awaited := o; App.remaining := rest |}).
  { clear Hp. induction others as [| x others IH]; cbn.
    - unfold App.isScan. cbn. by rewrite Nat.eqb_refl.
    - unfold App.isScan at 1.
      destruct (Nat.eqb_spec (App.scanId x) id) as [E | _].
      + exfalso. apply (Hothers x); [left | exact E].
      + apply IH. intros sc Hsc. apply Hothers. by right. }
  rewrite Hfind. cbn.
  assert (Hfilter : filter (fun x => App.scanId x ≠ id)
                      (others ++ [{| App.scanId := id; App.awaited := o;
                                     App.remaining := rest |}])
                    = others).
  { rewrite filter_app, filter_cons_False, filter_nil, app_nil_r by (cbn; auto).
    clear Hp Hfind. induction others as [| x others IH]; [done |].
    rewrite filter_cons_True by (apply Hothers; left).
    f_equal. apply IH. intros sc Hsc. apply Hothers. by right. }
  by rewrite Hfilter.
Qed.

Lemma fulfilled_appends_drain (rest : list Obj) :
  forall (s : App.State) (others : list App.Scan) (id : nat) (o : Obj) (sofar : list Obj),
    (forall sc, sc ∈ others -> App.scanId sc ≠ id) ->
    App.pendingScans s =
      others ++ [{| App.scanId := id; App.awaited := o; App.remaining := rest |}] ->
    callsOf id s = sofar ->
    callsOf id (run s (replicate (S (length rest)) (App.AddDocSettled id true)))
      = sofar ++ (delete "timestamp" <$> rest) /\
    App.pendingScans (run s (replicate (S (length rest)) (App.AddDocSettled id true)))
      = others.
Proof.
  induction rest as [| d rest IH]; intros s others id o sofar Hothers Hp Hc.
  - cbn [length replicate App.run foldl].
    rewrite (settle_last_scan s others id o [] Hothers Hp). cbn.
    split; [| done]. rewrite app_nil_r. exact Hc.
  - cbn [length replicate App.run foldl].
    rewrite (settle_last_scan s others id o (d :: rest) Hothers Hp).
    destruct (IH (App.appendLoop id (d :: rest) (App.setPendingScans others s))
                others id (delete "timestamp" d) (sofar ++ [delete "timestamp" d]) Hothers)
      as [H1 H2].
    + reflexivity.
    + rewrite <- Hc. unfold callsOf. cbn.
      rewrite filter_app, fmap_app, filter_cons_True by done. done.
    + unfold App.run in H1, H2. cbn [replicate foldl] in H1, H2.
      split; [| exact H2]. rewrite H1, <- app_assoc. done.
Qed.

(** X23: When every append of a scan is fulfilled, the scan hands to
    [addDoc] the record of each incident of its reading, once and in order,
    and is then no longer suspended, whatever other scans are pending. *)
Theorem fulfilled_scan_saves_every_incident
    (now : Z) (tr : list App.Event) (random1 random2 : Q) (now' : Z) :
  let s := run (App.init now) tr in
  App.isSimulationRunning s = true ->
  App.isAuthReady s = true ->
  is_Some (App.incidentCollectionRef s) ->
  let data := App.nextData (App.governanceData s) random1 random2 now' in
  let id := App.scanCount s in
  let s' :=
    run (step s (App.TimerFired random1 random2 now'))
        (replicate (length (incidents (checkCompliance data)))
                   (App.AddDocSettled id true)) in
  callsOf id s' = recordsOf data /\
  App.pendingScans s' = App.pendingScans s.
Proof.
  intros s Hrun Hready Href data id s'.
  assert (Hbelow : pendingBelowCount s) by apply pendingBelowCount_reachable.
  assert (Hcalls : callsBelowCount s).
  { apply (reachable_ind dateParse (fun s => pendingBelowCount s /\ callsBelowCount s)).
    - split; intros x Hx; by apply elem_of_nil in Hx.
    - intros s0 e [H1 H2]. split;
        [by apply pendingBelowCount_step | by apply callsBelowCount_step]. }
  assert (Hfresh : callsOf id s = []) by (apply callsOf_fresh; [exact Hcalls | done]).
  assert (Hothers : forall sc, sc ∈ App.pendingScans s -> App.scanId sc ≠ id).
  { intros sc Hsc. specialize (Hbelow sc Hsc). subst id. lia. }
  destruct (step_effect dateParse s (App.TimerFired random1 random2 now'))
    as [(Ep & Ec & _ & _) |
        [(r1 & r2 & t & d & rest & [= <- <- <-] & Hinc & Ep & Ec & _) |
         (id' & ok & sc & [=] & _)]].
  - (* no scan was started: the reading has no incident *)
    assert (Hnil : incidents (checkCompliance data) = []).
    { revert Ep. cbn. rewrite Hrun, Hready. cbn. unfold App.runDigitalScan.
      rewrite Hrun, (bool_decide_eq_true_2 _ Href). cbn. fold data.
      destruct (checkCompliance data) as [c [| d rest]]; cbn; [done |].
      intros H. apply (f_equal length) in H. rewrite length_app in H. cbn in H. lia. }
    subst s'. unfold recordsOf. rewrite Hnil.
    cbn [length replicate App.run foldl fmap list_fmap].
    split; [| exact Ep]. by rewrite (callsOf_same id s _ Ec).
  - fold data in Hinc. subst s'. unfold recordsOf. rewrite Hinc.
    cbn [length fmap list_fmap].
    destruct (fulfilled_appends_drain rest
                (step s (App.TimerFired random1 random2 now'))
                (App.pendingScans s) id (delete "timestamp" d) [delete "timestamp" d]
                Hothers Ep) as [H1 H2].
    + rewrite (callsOf_snoc id _ _ (App.addDocCalls s) s _ Ec), Hfresh.
      by rewrite decide_True.
    + split; [exact H1 | exact H2].
Qed.

Lemma Array_sort_same_time (l : list Obj) (str : string) :
  Forall (fun o => o !! "timestamp" = Some (VStr str)) l ->
  Array_sort (App.byTimestampDesc dateParse) l = l.
Proof.
  induction l as [| x l IH]; intros Hl; [done |].
  apply Forall_cons in Hl as [Hx Hl]. cbn.
  unfold Array_sort in IH. rewrite (IH Hl).
  destruct l as [| y l]; [done |]. cbn.
  apply Forall_cons in Hl as [Hy _].
  by rewrite (same_time_string_no_swap dateParse x y str Hx Hy).
Qed.

(** X24: A delivery in which every document holds exactly the four fields
    the scan loop saves is shown in the order of the delivery, whatever
    [Date] does: every entry displays "N/A", so nothing is ever swapped. *)
Theorem feed_of_saved_records_keeps_delivery_order (docs : list App.Doc) (s : App.State) :
  Forall (fun doc => dom (App.doc_data doc) = savedFields) docs ->
  App.incidents (App.onSnapshotNext dateParse docs s) = App.fetchedIncident <$> docs.
Proof.
  intros Hdocs. cbn. apply (Array_sort_same_time _ "N/A").
  apply Forall_fmap. eapply Forall_impl; [exact Hdocs |].
  intros doc Hdom. cbn. rewrite fetchedIncident_timestamp.
  assert (App.doc_data doc !! "timestamp" = None) as ->; [| done].
  apply not_elem_of_dom. rewrite Hdom. unfold savedFields.
  rewrite !elem_of_union, !elem_of_singleton.
  intros [[[H | H] | H] | H]; discriminate H.
Qed.

End Fulfilled.

Lemma fulfilled_scan_saves_every_incident_witness :
  callsOf (App.scanCount firstBreach)
    (App.run invalidDate
       (App.step invalidDate firstBreach (App.TimerFired 0.99 0.99 16000))
       (replicate
          (length (incidents
                     (checkCompliance
                        (App.nextData (App.governanceData firstBreach) 0.99 0.99 16000))))
          (App.AddDocSettled (App.scanCount firstBreach) true)))
  = recordsOf (App.nextData (App.governanceData firstBreach) 0.99 0.99 16000).
Proof.
  unfold firstBreach.
  refine (proj1 (fulfilled_scan_saves_every_incident invalidDate 0 breachTrace
                   0.99 0.99 16000 _ _ _)).
  - vm_compute. reflexivity.
  - vm_compute. reflexivity.
  - vm_compute. eexists. reflexivity.
Defined.

Lemma feed_of_saved_records_keeps_delivery_order_witness :
  App.incidents
    (App.onSnapshotNext invalidDate [docSavedWaste; docSavedTraffic] (App.init 0))
  = App.fetchedIncident <$> [docSavedWaste; docSavedTraffic].
Proof.
  apply (feed_of_saved_records_keeps_delivery_order invalidDate
           [docSavedWaste; docSavedTraffic] (App.init 0)).
  repeat constructor.
Defined.

(** ** The records handed to addDoc *)

Section SavedRecords.

Variable dateParse : string -> option Z.

Abbreviation step := (App.step dateParse).
Abbreviation run := (App.run dateParse).

Lemma draft_shape (d : Obj) :
  isDraft d ->
  d !! "timestamp" = Some VServerTimestamp /\
  dom (delete "timestamp" d) = savedFields.
Proof.
  intros [data Hd]. rewrite checkCompliance_incidents in Hd.
  apply elem_of_app in Hd as [Hd | Hd].
  - destruct (gt (wasteVolume data) _); [| by apply elem_of_nil in Hd].
    apply list_elem_of_singleton in Hd as ->. split.
    + apply (wasteIncident_fields data).
    + apply wasteIncident_saved.
  - destruct (gt (trafficDensity data) _); [| by apply elem_of_nil in Hd].
    apply list_elem_of_singleton in Hd as ->. split.
    + apply (trafficIncident_fields data).
    + apply trafficIncident_saved.
Qed.

Lemma strippedDraft_of_draft (d : Obj) : isDraft d -> strippedDraft (delete "timestamp" d).
Proof.
  intros Hd. exists d. split; [exact Hd |]. split; [| done].
  apply (draft_shape d Hd).
Qed.

Lemma savesDrafts_step (s : App.State) (e : App.Event) :
  savesDrafts s -> savesDrafts (step s e).
Proof.
  intros [Hc Hp]. unfold savesDrafts.
  destruct (step_effect dateParse s e) as
    [(-> & -> & _ & _) |
     [(r1 & r2 & now & d & rest & _ & Hinc & -> & -> & _) |
      (id & ok & sc & _ & Hin & _ & _ &
         [[-> ->] | (d & rest & _ & Hrem & -> & ->)])]].
  - by split.
  - assert (Hall : Forall isDraft (d :: rest)).
    { rewrite <- Hinc. rewrite Forall_forall. intros x Hx. by eexists. }
    apply Forall_cons in Hall as [Hd Hrest]. split.
    + apply Forall_app. split; [exact Hc |].
      constructor; [| constructor]. cbn. by apply strippedDraft_of_draft.
    + apply Forall_app. split; [exact Hp |]. by constructor.
  - split; [exact Hc |].
    rewrite Forall_forall in Hp |- *. intros x [_ Hx]%list_elem_of_filter. by apply Hp.
  - assert (Hall : Forall isDraft (d :: rest)).
    { rewrite <- Hrem. rewrite Forall_forall in Hp. by apply Hp. }
    apply Forall_cons in Hall as [Hd Hrest]. split.
    + apply Forall_app. split; [exact Hc |].
      constructor; [| constructor]. cbn. by apply strippedDraft_of_draft.
    + apply Forall_app. split; [| by constructor].
      rewrite Forall_forall in Hp |- *. intros x [_ Hx]%list_elem_of_filter. by apply Hp.
Qed.

(** C10: a scan whose reading breaks a rule hands the record of the first
    incident to [addDoc] at once and, as its appends are fulfilled, the
    record of every incident, each being the incident without its timestamp
    property; and in every state the component can reach, each record handed
    to [addDoc] is such a stripped incident: it has exactly the properties
    type, area, description and status and no timestamp, the sentinel the
    incident carried being removed. *)
Theorem C10_saved_records_have_four_fields (now : Z) (tr : list App.Event) :
  let s := run (App.init now) tr in
  Forall (fun c =>
            dom c.2 = savedFields /\
            c.2 !! "timestamp" = None /\
            exists d,
              isDraft d /\ d !! "timestamp" = Some VServerTimestamp /\
              c.2 = delete "timestamp" d)
         (App.addDocCalls s) /\
  (forall random1 random2 now' d rest,
     App.isSimulationRunning s = true ->
     App.isAuthReady s = true ->
     is_Some (App.incidentCollectionRef s) ->
     incidents (checkCompliance
                  (App.nextData (App.governanceData s) random1 random2 now'))
       = d :: rest ->
     App.addDocCalls (step s (App.TimerFired random1 random2 now')) =
       App.addDocCalls s ++ [(App.scanCount s, delete "timestamp" d)] /\
     callsOf (App.scanCount s)
       (run (step s (App.TimerFired random1 random2 now'))
            (replicate (length (d :: rest))
                       (App.AddDocSettled (App.scanCount s) true)))
       = delete "timestamp" <$> (d :: rest)).
Proof.
  intros s. split.
  - assert (Inv : savesDrafts s).
    { apply reachable_ind; [by split | apply savesDrafts_step]. }
    destruct Inv as [Hc _]. eapply Forall_impl; [exact Hc |].
    intros c (d & Hd & Hts & Hc2). cbn in *.
    destruct (draft_shape d Hd) as [_ Hdom].
    split; [by rewrite Hc2 |]. split; [| by exists d].
    rewrite Hc2. apply lookup_delete_eq.
  - intros random1 random2 now' d rest Hrun Hready Href Hinc.
    assert (Hbelow : pendingBelowCount s) by apply pendingBelowCount_reachable.
    assert (Hcalls : callsBelowCount s).
    { apply (reachable_ind dateParse (fun s => pendingBelowCount s /\ callsBelowCount s)).
      - split; intros x Hx; by apply elem_of_nil in Hx.
      - intros s0 e [H1 H2]. split;
          [by apply pendingBelowCount_step | by apply callsBelowCount_step]. }
    assert (Hfresh : callsOf (App.scanCount s) s = [])
      by (apply callsOf_fresh; [exact Hcalls | done]).
    assert (Hothers : forall sc, sc ∈ App.pendingScans s ->
                                 App.scanId sc ≠ App.scanCount s).
    { intros sc Hsc. specialize (Hbelow sc Hsc). lia. }
    destruct (step_effect dateParse s (App.TimerFired random1 random2 now'))
      as [(Ep & _ & _ & _) |
          [(r1 & r2 & t & d' & rest' & [= <- <- <-] & Hinc' & Ep & Ec & _) |
           (id' & ok & sc & [=] & _)]].
    + exfalso. revert Ep. cbn. rewrite Hrun, Hready. cbn. unfold App.runDigitalScan.
      rewrite Hrun, (bool_decide_eq_true_2 _ Href). cbn.
      destruct (checkCompliance _) as [c l]. cbn in Hinc. subst l. cbn.
      intros H. apply (f_equal length) in H. rewrite length_app in H. cbn in H. lia.
    + rewrite Hinc in Hinc'. injection Hinc' as <- <-.
      split; [exact Ec |].
      destruct (fulfilled_appends_drain dateParse rest
                  (step s (App.TimerFired random1 random2 now'))
                  (App.pendingScans s) (App.scanCount s)
                  (delete "timestamp" d) [delete "timestamp" d] Hothers Ep)
        as [H1 _].
      * rewrite (callsOf_snoc (App.scanCount s) _ _ (App.addDocCalls s) s _ Ec), Hfresh.
        by rewrite decide_True.
      * exact H1.
Qed.

End SavedRecords.

Lemma C10_saved_records_have_four_fields_witness :
  App.addDocCalls (App.step invalidDate firstBreach (App.TimerFired 0.99 0.99 16000)) =
    App.addDocCalls firstBreach ++
      [(App.scanCount firstBreach, delete "timestamp" (wasteIncident secondBreachReading))] /\
  callsOf (App.scanCount firstBreach)
    (App.run invalidDate
       (App.step invalidDate firstBreach (App.TimerFired 0.99 0.99 16000))
       (replicate
          (length [wasteIncident secondBreachReading; trafficIncident secondBreachReading])
          (App.AddDocSettled (App.scanCount firstBreach) true)))
    = delete "timestamp"
        <$> [wasteIncident secondBreachReading; trafficIncident secondBreachReading].
Proof.
  unfold firstBreach at 1 2 3 4 5 6.
  refine (proj2 (C10_saved_records_have_four_fields invalidDate 0 breachTrace)
            0.99%Q 0.99%Q 16000
            (wasteIncident secondBreachReading) [trafficIncident secondBreachReading]
            _ _ _ _).
  - vm_compute. reflexivity.
  - vm_compute. reflexivity.
  - vm_compute. eexists. reflexivity.
  - vm_compute. reflexivity.
Defined.

Example saved_log_not_empty :
  length (App.addDocCalls
            (App.run invalidDate
               (App.step invalidDate firstBreach (App.TimerFired 0.99 0.99 16000))
               [App.AddDocSettled 0 true; App.AddDocSettled 1 true])) = 4%nat /\
  dom <$> (App.addDocCalls firstBreach).*2 = [savedFields].
Proof. split; vm_compute; reflexivity. Qed.
